(** * Pyrr: quaternions, rotation-invariant bounding boxes and ray queries

    A shallow embedding of [pyrr/quaternion.py], [pyrr/aambb.py] and
    [pyrr/ray.py] over the real numbers, together with the properties stated
    for them.  Floating point numbers are read as reals ("exact real
    arithmetic"); Python exceptions are values of an error monad; the arrays
    that the AAMBB functions write into live in an explicit store.  The
    modules [pyrr/vector.py] and [pyrr/geometric_tests.py] are not among the
    sources: what is used of them follows the specification, and says so. *)

From Stdlib Require Import Reals Lra Lia.
From stdpp Require Import base option list strings gmap.

Local Open Scope R_scope.

(** ** Python results *)

(** The exceptions the embedded code can raise. *)
Inductive exn : Set :=
  | AssertionError
  | NameError
  | TypeError
  | ValueError
  | IndexError
  | ZeroDivisionError.

(** A call either returns a value or raises. *)
Inductive result (A : Type) : Type :=
  | Ok (a : A)
  | Raise (e : exn).
Arguments Ok {A} a.
Arguments Raise {A} e.

#[export] Instance result_ret : MRet result := fun A a => Ok a.
#[export] Instance result_bind : MBind result := fun A B f m =>
  match m with
  | Ok a => f a
  | Raise e => Raise e
  end.

(** [assert cond] with assertions enabled (the interpreter's default). *)
Definition py_assert (cond : bool) : result unit :=
  if cond then Ok tt else Raise AssertionError.

#[export] Instance Rlt_decision (a b : R) : Decision (a < b) := Rlt_dec a b.
#[export] Instance Rle_decision (a b : R) : Decision (a <= b) := Rle_dec a b.
#[export] Instance Rgt_decision (a b : R) : Decision (a > b) := Rgt_dec a b.
#[export] Instance Req_decision (a b : R) : Decision (a = b) := Req_dec_T a b.

(** ** Arrays *)

(** A 1-D array of three floats. *)
Record Vec3 : Type := mkVec3 { v0 : R; v1 : R; v2 : R }.

(** The components of a 3-array, as numpy iterates over them. *)
Definition elems3 (v : Vec3) : list R := [v0 v; v1 v; v2 v].

(** [a + b], [a * s] and [-a] on 3-arrays (numpy broadcasts the scalar). *)
Definition vadd (a b : Vec3) : Vec3 :=
  mkVec3 (v0 a + v0 b) (v1 a + v1 b) (v2 a + v2 b).
Definition vscale (a : Vec3) (s : R) : Vec3 :=
  mkVec3 (v0 a * s) (v1 a * s) (v2 a * s).
Definition vneg (a : Vec3) : Vec3 := mkVec3 (- v0 a) (- v1 a) (- v2 a).

(** [a - b] on 3-arrays. *)
Definition vsub (a b : Vec3) : Vec3 :=
  mkVec3 (v0 a - v0 b) (v1 a - v1 b) (v2 a - v2 b).

(** A 1-D array of three floats read back as a row of a (2,3) array. *)
Definition row_of_list (a : list R) : Vec3 :=
  mkVec3 (nth 0 a 0) (nth 1 a 0) (nth 2 a 0).

(** [a[i]] on a 1-D array held as a list. *)
Definition getitem (a : list R) (i : nat) : result R :=
  match a !! i with
  | Some r => Ok r
  | None => Raise IndexError
  end.

(** [a / b] on Python floats raises on a zero divisor. *)
Definition float_div (a b : R) : result R :=
  if bool_decide (b = 0) then Raise ZeroDivisionError else Ok (a / b).

(** ** The part of the math module that the code calls *)
Module math.

(** [math.sqrt] has a domain error below zero. *)
Definition sqrt (x : R) : result R :=
  if bool_decide (0 <= x) then Ok (R_sqrt.sqrt x) else Raise ValueError.

(** [math.acos] has a domain error outside [-1, 1]. *)
Definition acos (x : R) : result R :=
  if bool_decide (-1 <= x <= 1) then Ok (Ratan.acos x) else Raise ValueError.

End math.

(** ** The part of numpy that the code calls *)
Module numpy.

(** [numpy.absolute] on an (n,3) array. *)
Definition absolute (points : list Vec3) : list Vec3 :=
  map (fun p => mkVec3 (Rabs (v0 p)) (Rabs (v1 p)) (Rabs (v2 p))) points.

(** Component-wise maximum of two rows. *)
Definition maximum (a b : Vec3) : Vec3 :=
  mkVec3 (Rmax (v0 a) (v0 b)) (Rmax (v1 a) (v1 b)) (Rmax (v2 a) (v2 b)).

(** [numpy.amax(a, axis = 0)] on an (n,3) array: the maximum of every
    column; a reduction over zero rows has no identity and raises. *)
Definition amax (a : list Vec3) : result Vec3 :=
  match a with
  | [] => Raise ValueError
  | p :: ps => Ok (foldl maximum p ps)
  end.

(** [numpy.vstack(tup)] has ONE positional parameter, the sequence of
    arrays to stack; [args] lists the positional arguments of a call,
    each one given by its rows.  Any other number of positional arguments
    is a [TypeError], raised before anything is stacked. *)
Definition vstack (args : list (list Vec3)) : result (list Vec3) :=
  match args with
  | [tup] => Ok tup
  | _ => Raise TypeError
  end.

(** [numpy.linalg.norm(v, ord = None)] of a 1-D array: the 2-norm. *)
Definition linalg_norm (v : list R) : R :=
  sqrt (foldr (fun c acc => c * c + acc) 0 v).

End numpy.

(** ** pyrr.vector *)
Module vector.

(** Modelled from the spec: [pyrr/vector.py] is not among the sources.
    [squared_length] is the sum of the squares of the components. *)
Definition squared_length (vec : list R) : R :=
  foldr (fun c acc => c * c + acc) 0 vec.

(** Modelled from the spec: [pyrr/vector.py] is not among the sources.
    [length] is the Euclidean length. *)
Definition length (vec : list R) : R := sqrt (squared_length vec).

(** Modelled from the spec: [pyrr/vector.py] is not among the sources.
    [normalise] divides every component by the length; a zero vector is
    not special-cased (nan in numpy), so properties of [normalise] are
    stated for non-zero vectors. *)
Definition normalise (vec : list R) : list R :=
  map (fun c => c / length vec) vec.

End vector.

(** ** pyrr.quaternion *)
Module quaternion.

(** A quaternion is a 1-D array of four floats, laid out (x, y, z, w). *)
Record Quat : Type := mkQuat { qx : R; qy : R; qz : R; qw : R }.

Definition elems4 (q : Quat) : list R := [qx q; qy q; qz q; qw q].

(** [class index]: the slot of every component.  The constants are
    attributes of the class; the module itself binds no [x], [y], [z], [w]. *)
Module index.
Definition x : nat := 0.
Definition y : nat := 1.
Definition z : nat := 2.
Definition w : nat := 3.
End index.

(** [quat[i]] *)
Definition item (quat : Quat) (i : nat) : result R := getitem (elems4 quat) i.

(** What a name of the module's global namespace is bound to. *)
Inductive pyobj : Set :=
  | PyModule
  | PyClass
  | PyFunction
  | PyFeature.

(** The global namespace of [quaternion.py]: the [__future__] features, the
    imported modules, [class index] and the functions, in source order. *)
Definition globals : gmap string pyobj :=
  list_to_map
    [ ("absolute_import", PyFeature); ("division", PyFeature);
      ("print_function", PyFeature); ("unicode_literals", PyFeature);
      ("math", PyModule); ("numpy", PyModule);
      ("vector", PyModule); ("vector3", PyModule); ("vector4", PyModule);
      ("index", PyClass);
      ("create", PyFunction); ("create_identity", PyFunction);
      ("create_from_x_rotation", PyFunction);
      ("create_from_y_rotation", PyFunction);
      ("create_from_z_rotation", PyFunction);
      ("create_from_axis_rotation", PyFunction);
      ("create_from_eulers", PyFunction);
      ("create_from_inverse_of_eulers", PyFunction);
      ("cross", PyFunction); ("is_zero_length", PyFunction);
      ("is_non_zero_length", PyFunction); ("squared_length", PyFunction);
      ("length", PyFunction); ("normalise", PyFunction);
      ("get_rotation_angle", PyFunction); ("get_rotation_axis", PyFunction);
      ("dot", PyFunction); ("conjugate", PyFunction); ("power", PyFunction);
      ("inverse", PyFunction); ("negate", PyFunction);
      ("apply_to_vector", PyFunction) ].

(** Reading a name that is not a local of the function: the module's
    globals are searched (no builtin is called [w] or [out]), and a name
    bound nowhere raises [NameError]. *)
Definition load_global (name : string) : result pyobj :=
  match globals !! name with
  | Some o => Ok o
  | None => Raise NameError
  end.

(** [quat[o]] where [o] is a module, class or function: not an index. *)
Definition item_at_object (quat : Quat) (o : pyobj) : result R :=
  Raise IndexError.

(** [o[:] = ...] where [o] is a module, class or function: it supports no
    item assignment, so the statement never completes. *)
Definition assign_into_object (o : pyobj) : result Empty_set :=
  Raise TypeError.

Definition create (x y z w : R) : Quat := mkQuat x y z w.

Definition create_from_x_rotation (theta : R) : Quat :=
  let thetaOver2 := theta * 0.5 in
  mkQuat (sin thetaOver2) 0 0 (cos thetaOver2).

Definition create_from_y_rotation (theta : R) : Quat :=
  let thetaOver2 := theta * 0.5 in
  mkQuat 0 (sin thetaOver2) 0 (cos thetaOver2).

Definition create_from_z_rotation (theta : R) : Quat :=
  let thetaOver2 := theta * 0.5 in
  mkQuat 0 0 (sin thetaOver2) (cos thetaOver2).

Definition create_from_axis_rotation (axis : Vec3) (theta : R) : result Quat :=
  (* make sure the vector is normalised *)
  py_assert (bool_decide (numpy.linalg_norm (elems3 axis) - 1.0 < 0.01));;
  let thetaOver2 := theta * 0.5 in
  let sinThetaOver2 := sin thetaOver2 in
  Ok (mkQuat (v0 axis * sinThetaOver2)
             (v1 axis * sinThetaOver2)
             (v2 axis * sinThetaOver2)
             (cos thetaOver2)).

Definition cross (quat1 quat2 : Quat) : Quat :=
  let '(mkQuat q1x q1y q1z q1w) := quat1 in
  let '(mkQuat q2x q2y q2z q2w) := quat2 in
  mkQuat
    ((q1w * q2x) + (q1x * q2w) + (q1z * q2y) - (q1y * q2z))
    ((q1w * q2y) + (q1y * q2w) + (q1x * q2z) - (q1z * q2x))
    ((q1w * q2z) + (q1z * q2w) + (q1y * q2x) - (q1x * q2y))
    ((q1w * q2w) - (q1x * q2x) - (q1y * q2y) - (q1z * q2z)).

(** [quat[0] == quat[1] == quat[2] == quat[3] == 0.0], a chained comparison. *)
Definition is_zero_length (quat : Quat) : bool :=
  bool_decide (qx quat = qy quat) && bool_decide (qy quat = qz quat)
  && bool_decide (qz quat = qw quat) && bool_decide (qw quat = 0.0).

Definition is_non_zero_length (quat : Quat) : bool :=
  negb (is_zero_length quat).

Definition squared_length (quat : Quat) : R :=
  vector.squared_length (elems4 quat).

Definition length (quat : Quat) : R := vector.length (elems4 quat).

Definition get_rotation_angle (quat : Quat) : result R :=
  thetaOver2 ← math.acos (qw quat);
  Ok (thetaOver2 * 2.0).

Definition get_rotation_axis (quat : Quat) : result Vec3 :=
  let sinThetaOver2Sq := 1.0 - (qw quat) ^ 2 in
  if bool_decide (sinThetaOver2Sq <= 0.0) then
    (* assert here for the time being *)
    py_assert false;;
    (* the [print] is left out; we'll treat -Z as the default *)
    out ← load_global "out";
    stored ← assign_into_object out;
    match stored : Empty_set with end
  else
    root ← math.sqrt sinThetaOver2Sq;
    oneOverSinThetaOver2 ← float_div 1.0 root;
    Ok (mkVec3 (qx quat * oneOverSinThetaOver2)
               (qy quat * oneOverSinThetaOver2)
               (qz quat * oneOverSinThetaOver2)).

Definition conjugate (quat : Quat) : Quat :=
  mkQuat (- qx quat) (- qy quat) (- qz quat) (qw quat).

Definition power (quat : Quat) (exponent : R) : result Quat :=
  (* check for identify quaternion: [quat[w]], with a bare [w] *)
  w ← load_global "w";
  qw_ ← item_at_object quat w;
  if bool_decide (Rabs qw_ > 0.9999) then
    py_assert false;;
    out ← load_global "out";
    stored ← assign_into_object out;
    match stored : Empty_set with end
  else
    alpha_arg ← item quat index.w;
    alpha ← math.acos alpha_arg;
    let newAlpha := alpha * exponent in
    multi ← float_div (sin newAlpha) (sin alpha);
    x ← item quat index.x;
    y ← item quat index.y;
    z ← item quat index.z;
    Ok (mkQuat (x * multi) (y * multi) (z * multi) (cos newAlpha)).

(** [quat / s], numpy's division of an array by a scalar.  It does not
    raise: numpy gives nan or inf on a zero divisor, which the reals do not
    have, so properties of [qdiv] are stated for non-zero divisors. *)
Definition qdiv (quat : Quat) (s : R) : Quat :=
  mkQuat (qx quat / s) (qy quat / s) (qz quat / s) (qw quat / s).

Definition inverse (quat : Quat) : Quat :=
  qdiv (conjugate quat) (squared_length quat).

Definition negate (quat : Quat) : Quat :=
  mkQuat (qx quat * -1.0) (qy quat * -1.0) (qz quat * -1.0) (qw quat * -1.0).

Section apply_to_vector.

(** [vector3.create_from_vector4] and [vector4.create_from_vector3] are not
    among the sources; the 4-component path takes them as they are. *)
Variable vector3_create_from_vector4 : list R -> list R.
Variable vector4_create_from_vector3 : list R -> list R.

(** The inner function [apply]. *)
Definition apply (quat : Quat) (vec3 : list R) : result (list R) :=
  let length := vector.length vec3 in
  let vec3 := vector.normalise vec3 in
  (* the vector3 to vector4 conversion with W = 0 *)
  a ← getitem vec3 0;
  b ← getitem vec3 1;
  c ← getitem vec3 2;
  let vec_quat := mkQuat a b c 0.0 in
  (* quat * vec * quat^-1 *)
  let result := cross quat (cross vec_quat (conjugate quat)) in
  Ok [qx result * length; qy result * length; qz result * length].

Definition apply_to_vector (quat : Quat) (vec : list R) : result (list R) :=
  if bool_decide (List.length vec = 3%nat) then
    apply quat vec
  else if bool_decide (List.length vec = 4%nat) then
    let vec3 := vector3_create_from_vector4 vec in
    vec3 ← apply quat vec3;
    Ok (vector4_create_from_vector3 vec3)
  else
    Raise ValueError.

End apply_to_vector.

(** [quat[:-1]]: the x, y, z components. *)
Definition vector_part (quat : Quat) : list R := [qx quat; qy quat; qz quat].

(** Eulers are an array of length 3 in the order [[ yaw, pitch, roll ]]. *)
Definition create_from_eulers (eulers : Vec3) : Quat :=
  let halfYaw := v0 eulers * 0.5 in
  let sinYaw := sin halfYaw in
  let cosYaw := cos halfYaw in
  let halfPitch := v1 eulers * 0.5 in
  let sinPitch := sin halfPitch in
  let cosPitch := cos halfPitch in
  let halfRoll := v2 eulers * 0.5 in
  let sinRoll := sin halfRoll in
  let cosRoll := cos halfRoll in
  mkQuat
    ((- cosYaw * sinPitch * cosRoll) - (sinYaw * cosPitch * sinRoll))
    ((cosYaw * sinPitch * sinRoll) - (sinYaw * cosPitch * cosRoll))
    ((sinYaw * sinPitch * cosRoll) - (cosYaw * cosPitch * sinRoll))
    ((cosYaw * cosPitch * cosRoll) + (sinYaw * sinPitch * sinRoll)).

Definition create_from_inverse_of_eulers (eulers : Vec3) : Quat :=
  let halfYaw := v0 eulers * 0.5 in
  let sinYaw := sin halfYaw in
  let cosYaw := cos halfYaw in
  let halfPitch := v1 eulers * 0.5 in
  let sinPitch := sin halfPitch in
  let cosPitch := cos halfPitch in
  let halfRoll := v2 eulers * 0.5 in
  let sinRoll := sin halfRoll in
  let cosRoll := cos halfRoll in
  mkQuat
    ((cosYaw * sinPitch * cosRoll) + (sinYaw * cosPitch * sinRoll))
    ((- cosYaw * sinPitch * sinRoll) + (sinYaw * cosPitch * cosRoll))
    ((- sinYaw * sinPitch * cosRoll) + (cosYaw * cosPitch * sinRoll))
    ((cosYaw * cosPitch * cosRoll) + (sinYaw * sinPitch * sinRoll)).

(** [normalise] hands the quaternion to [vector.normalise]. *)
Definition normalise (quat : Quat) : list R := vector.normalise (elems4 quat).

End quaternion.

(** ** pyrr.aambb *)
Module aambb.

(** An AABB or AAMBB is a (2,3) array: row 0 is the minimum corner, row 1
    the maximum corner. *)
Record Box : Type := mkBox { row0 : Vec3; row1 : Vec3 }.

(** Arrays are objects: an [out] argument is a reference into the store of
    live (2,3) arrays, and [out[:] = ...] updates the array it refers to. *)
Definition loc : Set := nat.
Definition store : Type := list Box.

(** What a call hands back: [None], or a reference to an array. *)
Inductive pyret : Set :=
  | PyNone
  | PyArray (l : loc).

(** Store-passing computations that may raise. *)
Definition M (A : Type) : Type := store -> result (A * store).

#[export] Instance M_ret : MRet M := fun A a h => Ok (a, h).
#[export] Instance M_bind : MBind M := fun A B f m h =>
  match m h with
  | Ok (a, h') => f a h'
  | Raise e => Raise e
  end.

(** A computation that does not touch the store. *)
Definition lift {A : Type} (r : result A) : M A := fun h =>
  match r with
  | Ok a => Ok (a, h)
  | Raise e => Raise e
  end.

(** [out[:] = value]: overwrite the array that [out] refers to. *)
Definition assign_all (out : loc) (value : Box) : M unit := fun h =>
  Ok (tt, <[out := value]> h).

(** The rows of a list of (2,3) arrays viewed with shape (-1, 3). *)
Definition reshape_rows (aabbs : list Box) : list Vec3 :=
  flat_map (fun b => [row0 b; row1 b]) aabbs.

Section with_uninitialised_memory.

(** What [numpy.empty] finds in the memory it hands out. *)
Variable uninitialised : Box.

(** [_empty()]: a fresh (2,3) array, not initialised. *)
Definition _empty : M loc := fun h =>
  Ok (List.length h, h ++ [uninitialised]).

(** [if out == None: out = _empty()].  For an array, [out == None] is the
    single value [False] in the numpy this code was written for. *)
Definition out_or_empty (out : option loc) : M loc :=
  match out with
  | None => _empty
  | Some l => mret l
  end.

(** The function body ends after the assignment to [out[:]]: there is no
    [return], so the call evaluates to [None]. *)
Definition create_from_points (points : list Vec3) (out : option loc)
  : M pyret :=
  out ← out_or_empty out;
  (* convert any negative values to positive *)
  let abs_points := numpy.absolute points in
  (* extract the maximum extent as a vector *)
  vec ← lift (numpy.amax abs_points);
  (* find the length of this vector *)
  let length := vector.length (elems3 vec) in
  (* our AAMBB extends from +length to -length in all directions *)
  assign_all out (mkBox (mkVec3 (- length) (- length) (- length))
                        (mkVec3 length length length));;
  mret PyNone.

(** [numpy.vstack( min, max )]: two positional arguments. *)
Definition create_from_bounds (min max : Vec3) (out : option loc) : M pyret :=
  bounds ← lift (numpy.vstack [[min]; [max]]);
  create_from_points bounds out.

Definition create_from_aabbs (aabbs : list Box) (out : option loc) : M pyret :=
  (* reshape the AABBs as a series of points *)
  let points := reshape_rows aabbs in
  create_from_points points out.

(** [numpy.vstack( points, aabb[ 0 ], aabb[ 1 ] )]: three positional
    arguments.  [aabb] is only read, and before anything is written. *)
Definition add_points (aabb : Box) (points : list Vec3) (out : option loc)
  : M pyret :=
  out ← out_or_empty out;
  (* add our AABB to the list of points *)
  values ← lift (numpy.vstack [points; [row0 aabb]; [row1 aabb]]);
  let abs_points := numpy.absolute values in
  vec ← lift (numpy.amax abs_points);
  let length := vector.length (elems3 vec) in
  assign_all out (mkBox (mkVec3 (- length) (- length) (- length))
                        (mkVec3 length length length));;
  mret PyNone.

Definition add_aabbs (aabb : Box) (aabbs : list Box) (out : option loc)
  : M pyret :=
  let points := reshape_rows aabbs in
  (* use the add_points *)
  add_points aabb points out.

End with_uninitialised_memory.

Definition centre_point (aabb : Box) : Vec3 :=
  vscale (vadd (row0 aabb) (row1 aabb)) 0.5.

Definition minimum (aabb : Box) : Vec3 := row0 aabb.

Definition maximum (aabb : Box) : Vec3 := row1 aabb.

(** The array [[[-r, -r, -r], [r, r, r]]]. *)
Definition cube (r : R) : Box := mkBox (mkVec3 (- r) (- r) (- r)) (mkVec3 r r r).

(** A call of one of the construction and growth operations. *)
Inductive operation : Type :=
  | CreateFromPoints (points : list Vec3)
  | CreateFromBounds (min max : Vec3)
  | CreateFromAabbs (aabbs : list Box)
  | AddPoints (aabb : Box) (points : list Vec3)
  | AddAabbs (aabb : Box) (aabbs : list Box).

Definition call (uninitialised : Box) (op : operation) (out : option loc)
  : M pyret :=
  match op with
  | CreateFromPoints points => create_from_points uninitialised points out
  | CreateFromBounds min max => create_from_bounds uninitialised min max out
  | CreateFromAabbs aabbs => create_from_aabbs uninitialised aabbs out
  | AddPoints aabb points => add_points uninitialised aabb points out
  | AddAabbs aabb aabbs => add_aabbs uninitialised aabb aabbs out
  end.

(** The array that a call writes into: the one [out] refers to, or the
    fresh one, which [_empty] puts at the end of the store. *)
Definition written (out : option loc) (h : store) : loc :=
  match out with
  | Some l => l
  | None => List.length h
  end.

(** An [out] argument refers to an array of the store. *)
Definition valid_out (out : option loc) (h : store) : Prop :=
  match out with
  | Some l => (l < List.length h)%nat
  | None => True
  end.

End aambb.

(** ** pyrr.ray *)
Module ray.

(** A ray is a (2,3) array: row 0 is the origin, row 1 the direction. *)
Record Ray : Type := mkRay { row0 : Vec3; row1 : Vec3 }.

Definition origin (ray : Ray) : Vec3 := row0 ray.

Definition direction (ray : Ray) : Vec3 := row1 ray.

(** A line is a (2,3) array: row 0 is its start, row 1 its end. *)
Record Line : Type := mkLine { line0 : Vec3; line1 : Vec3 }.

Definition create_identity : Ray :=
  mkRay (mkVec3 0.0 0.0 0.0) (mkVec3 0.0 0.0 (-1.0)).

Definition create_ray (start direction : Vec3) : Ray :=
  mkRay start (row_of_list (vector.normalise (elems3 direction))).

(** Converts a line or line segment to a ray. *)
Definition create_from_line (line : Line) : Ray :=
  (* direction = vend - vstart *)
  mkRay (line0 line)
        (row_of_list (vector.normalise (elems3 (vsub (line1 line) (line0 line))))).

End ray.

(** ** pyrr.geometric_tests *)
Module geometric_tests.

(** The part of the ray's parameter line that one axis allows: nothing,
    everything, or the closed interval between two crossings. *)
Inductive slab : Type :=
  | Miss
  | Unconstrained
  | Span (t_lo t_hi : R).

(** Modelled from the spec: [pyrr/geometric_tests.py] is not among the
    sources.  One axis of the slab method: the crossings of the axis's
    minimum and maximum planes are at [t = (bound - origin) / direction];
    a zero direction component constrains nothing when the origin lies
    within the slab, and rules out any intersection otherwise. *)
Definition axis_slab (o d lo hi : R) : slab :=
  if bool_decide (d = 0) then
    if bool_decide (lo <= o) && bool_decide (o <= hi)
    then Unconstrained else Miss
  else
    let t1 := (lo - o) / d in
    let t2 := (hi - o) / d in
    Span (Rmin t1 t2) (Rmax t1 t2).

(** Modelled from the spec: [pyrr/geometric_tests.py] is not among the
    sources.  Intersection of two per-axis intervals. *)
Definition meet (a b : slab) : slab :=
  match a, b with
  | Miss, _ | _, Miss => Miss
  | Unconstrained, s | s, Unconstrained => s
  | Span a_lo a_hi, Span b_lo b_hi => Span (Rmax a_lo b_lo) (Rmin a_hi b_hi)
  end.

(** Modelled from the spec: [pyrr/geometric_tests.py] is not among the
    sources.  The three per-axis intervals intersected into one
    [[t_enter, t_exit]]. *)
Definition ray_interval (r : ray.Ray) (aabb : aambb.Box) : slab :=
  let o := ray.origin r in
  let d := ray.direction r in
  let lo := aambb.row0 aabb in
  let hi := aambb.row1 aabb in
  meet (axis_slab (v0 o) (v0 d) (v0 lo) (v0 hi))
    (meet (axis_slab (v1 o) (v1 d) (v1 lo) (v1 hi))
          (axis_slab (v2 o) (v2 d) (v2 lo) (v2 hi))).

(** The point [origin + t * direction] of a ray. *)
Definition point_at (r : ray.Ray) (t : R) : Vec3 :=
  vadd (ray.origin r) (vscale (ray.direction r) t).

(** Modelled from the spec: [pyrr/geometric_tests.py] is not among the
    sources.  No intersection when [t_enter > t_exit] or [t_exit < 0];
    the exit point when [t_enter < 0], the entry point otherwise.  A ray
    that no axis constrains has a zero direction, which a ray never has;
    the spec defines no point for it and the model gives none. *)
Definition ray_intersect_aabb (r : ray.Ray) (aabb : aambb.Box) : option Vec3 :=
  match ray_interval r aabb with
  | Miss => None
  | Unconstrained => None
  | Span t_enter t_exit =>
      if bool_decide (t_enter > t_exit) || bool_decide (t_exit < 0) then None
      else if bool_decide (t_enter < 0) then Some (point_at r t_exit)
      else Some (point_at r t_enter)
  end.

(** The origin lies strictly inside the box, on every axis. *)
Definition strictly_inside (p : Vec3) (aabb : aambb.Box) : Prop :=
  let lo := aambb.row0 aabb in
  let hi := aambb.row1 aabb in
  v0 lo < v0 p < v0 hi /\ v1 lo < v1 p < v1 hi /\ v2 lo < v2 p < v2 hi.

(** An interval with 0 strictly inside it, or no bound at all. *)
Definition straddles_zero (s : slab) : Prop :=
  match s with
  | Miss => False
  | Unconstrained => True
  | Span t_lo t_hi => t_lo < 0 < t_hi
  end.

Definition is_span (s : slab) : Prop :=
  match s with
  | Span _ _ => True
  | _ => False
  end.

End geometric_tests.

(** ** pyrr.test.test_geometric_tests *)
Module test_geometric_tests.

(** The arrays of [test_ray_intersect_aabb]: both rays meet the same box. *)
Definition aabb : aambb.Box :=
  aambb.mkBox (mkVec3 (-1.0) (-1.0) (-1.0)) (mkVec3 1.0 1.0 1.0).

Definition ray_1 : ray.Ray :=
  ray.mkRay (mkVec3 0.5 0.5 0.0) (mkVec3 0.0 0.0 (-1.0)).

Definition ray_1_expected : Vec3 := mkVec3 0.5 0.5 (-1.0).

Definition ray_2 : ray.Ray :=
  ray.mkRay (mkVec3 2.0 2.0 2.0) (mkVec3 (-1.0) (-1.0) (-1.0)).

Definition ray_2_expected : Vec3 := mkVec3 1.0 1.0 1.0.

End test_geometric_tests.

(** * Properties *)

(** ** Quaternion algebra *)
Section quaternion_algebra.

Import quaternion.

Lemma squared_length_unfold (q : Quat) :
  squared_length q = qx q * qx q + qy q * qy q + qz q * qz q + qw q * qw q.
Proof.
  unfold squared_length, vector.squared_length, elems4; simpl. ring.
Qed.

Lemma squared_length_nonneg (q : Quat) : 0 <= squared_length q.
Proof. rewrite squared_length_unfold. nra. Qed.

Lemma is_zero_length_spec (q : Quat) :
  is_zero_length q = true <-> q = mkQuat 0 0 0 0.
Proof.
  destruct q as [a b c d]. unfold is_zero_length; simpl.
  rewrite !andb_true_iff, !bool_decide_eq_true. split.
  - intros [[[Hab Hbc] Hcd] Hd]. f_equal; lra.
  - intros H; injection H as -> -> -> ->. repeat split; lra.
Qed.

Lemma non_zero_squared_length (q : Quat) :
  is_non_zero_length q = true -> squared_length q <> 0.
Proof.
  unfold is_non_zero_length. intros Hnz Hsq.
  apply negb_true_iff in Hnz.
  assert (Hz : is_zero_length q = true); [|congruence].
  apply is_zero_length_spec.
  rewrite squared_length_unfold in Hsq. destruct q as [a b c d]; simpl in *.
  assert (a = 0) by nra. assert (b = 0) by nra.
  assert (c = 0) by nra. assert (d = 0) by nra. congruence.
Qed.

(** C9: [conjugate] is an involution, [conjugate (conjugate q) = q] for
    every quaternion [q]; it keeps the w component and negates x, y, z. *)
Theorem conjugate_involution (q : Quat) :
  conjugate (conjugate q) = q
  /\ qw (conjugate q) = qw q
  /\ qx (conjugate q) = - qx q
  /\ qy (conjugate q) = - qy q
  /\ qz (conjugate q) = - qz q.
Proof.
  destruct q as [a b c d]. unfold conjugate; simpl.
  repeat split; try reflexivity.
  f_equal; ring.
Qed.

(** C6: over the reals, for every non-zero quaternion [q], [inverse q] is
    [conjugate q] divided by [squared_length q], and [cross q (inverse q)]
    is the identity quaternion (0, 0, 0, 1). *)
Theorem cross_inverse_identity (q : Quat) :
  is_non_zero_length q = true ->
  inverse q = qdiv (conjugate q) (squared_length q)
  /\ cross q (inverse q) = mkQuat 0 0 0 1.
Proof.
  intros Hnz. split; [reflexivity|].
  pose proof (non_zero_squared_length q Hnz) as Hsq.
  unfold inverse. rewrite squared_length_unfold in *.
  destruct q as [a b c d]; simpl in *.
  f_equal; field; exact Hsq.
Qed.

(** The quaternion (1, 2, 2, 4) is not zero, so its inverse cancels it. *)
Lemma cross_inverse_identity_witness :
  is_non_zero_length (mkQuat 1 2 2 4) = true
  /\ cross (mkQuat 1 2 2 4) (inverse (mkQuat 1 2 2 4)) = mkQuat 0 0 0 1.
Proof.
  assert (Hnz : is_non_zero_length (mkQuat 1 2 2 4) = true).
  { unfold is_non_zero_length, is_zero_length; simpl.
    rewrite (bool_decide_eq_false_2 (1 = 2)) by lra. reflexivity. }
  split; [exact Hnz|].
  exact (proj2 (cross_inverse_identity (mkQuat 1 2 2 4) Hnz)).
Defined.

End quaternion_algebra.

(** ** Rotating a vector *)
Section rotation.

Import quaternion.

Lemma zero_literal : 0.0 = 0.
Proof. lra. Qed.

Lemma length_unit_squared (q : Quat) : length q = 1 -> squared_length q = 1.
Proof.
  unfold length, vector.length. fold (squared_length q). intros H.
  rewrite <- (sqrt_sqrt (squared_length q)) by apply squared_length_nonneg.
  rewrite H. ring.
Qed.

(** The sandwich product multiplies the squared length of a pure
    quaternion by the square of the rotor's squared length. *)
Lemma sandwich_squared_length (x y z w a b c L : R) :
  let r := cross (mkQuat x y z w)
             (cross (mkQuat a b c 0) (conjugate (mkQuat x y z w))) in
  vector.squared_length [qx r * L; qy r * L; qz r * L]
  = (x * x + y * y + z * z + w * w) * (x * x + y * y + z * z + w * w)
    * ((a * L) * (a * L) + (b * L) * (b * L) + (c * L) * (c * L)).
Proof. unfold vector.squared_length; simpl. ring. Qed.

Lemma vec3_length_pos (a b c : R) :
  [a; b; c] <> [0; 0; 0] -> 0 < vector.length [a; b; c].
Proof.
  intros Hnz. unfold vector.length, vector.squared_length; simpl.
  apply sqrt_lt_R0.
  destruct (Req_dec_T a 0) as [->|Ha]; [|nra].
  destruct (Req_dec_T b 0) as [->|Hb]; [|nra].
  destruct (Req_dec_T c 0) as [->|Hc]; [|nra].
  contradiction.
Qed.

(** C10: over the reals, for every unit-length quaternion [q] and every
    non-zero 3-component vector [vec], [apply_to_vector q vec] returns a
    3-component vector whose Euclidean length is that of [vec]. *)
Theorem apply_to_vector_preserves_length
    (from_vector4 from_vector3 : list R -> list R) (q : Quat) (vec : list R) :
  length q = 1 ->
  List.length vec = 3%nat ->
  vec <> [0; 0; 0] ->
  exists rotated,
    apply_to_vector from_vector4 from_vector3 q vec = Ok rotated
    /\ List.length rotated = 3%nat
    /\ vector.length rotated = vector.length vec.
Proof.
  intros Hunit Hsize Hnz.
  destruct vec as [|a [|b [|c [|? ?]]]]; try discriminate Hsize.
  pose proof (vec3_length_pos a b c Hnz) as HL.
  pose proof (length_unit_squared q Hunit) as HN.
  rewrite squared_length_unfold in HN.
  unfold apply_to_vector. rewrite bool_decide_eq_true_2 by reflexivity.
  unfold apply.
  cbn [vector.normalise map getitem lookup list_lookup mbind result_bind].
  rewrite zero_literal.
  eexists; split; [reflexivity|]. split; [reflexivity|].
  set (L := vector.length [a; b; c]) in *.
  destruct q as [x y z w]; simpl in HN.
  unfold vector.length at 1. rewrite sandwich_squared_length, HN.
  replace (1 * 1 * (a / L * L * (a / L * L) + b / L * L * (b / L * L)
                    + c / L * L * (c / L * L)))
    with (vector.squared_length [a; b; c]).
  - reflexivity.
  - unfold vector.squared_length; simpl. field. lra.
Qed.

(** The rotation about z with half-angle sine 3/5 and cosine 4/5, applied
    to (1, 2, 2); the 4-component helpers are never called. *)
Lemma apply_to_vector_preserves_length_witness :
  length (mkQuat 0 0 (3 / 5) (4 / 5)) = 1
  /\ exists rotated,
       apply_to_vector (fun v => v) (fun v => v)
         (mkQuat 0 0 (3 / 5) (4 / 5)) [1; 2; 2] = Ok rotated
       /\ List.length rotated = 3%nat
       /\ vector.length rotated = vector.length [1; 2; 2].
Proof.
  assert (Hunit : length (mkQuat 0 0 (3 / 5) (4 / 5)) = 1).
  { unfold length, vector.length, vector.squared_length; simpl.
    replace (0 * 0 + (0 * 0 + (3 / 5 * (3 / 5) + (4 / 5 * (4 / 5) + 0))))
      with 1 by field.
    apply sqrt_1. }
  split; [exact Hunit|].
  apply (apply_to_vector_preserves_length _ _ _ [1; 2; 2] Hunit).
  - reflexivity.
  - intros H. injection H as H. lra.
Defined.

End rotation.

(** ** Degenerate cases and preconditions of the quaternion functions *)
Section quaternion_degenerate.

Import quaternion.

Lemma load_global_w : load_global "w" = Raise NameError.
Proof. reflexivity. Qed.

Lemma load_global_out : load_global "out" = Raise NameError.
Proof. reflexivity. Qed.

(** C3: [power] is to return [q] unchanged when [|w|] is near 1 and the
    rescaled quaternion otherwise.  The code does neither: its first
    expression reads [quat[w]] with a name [w] that is bound nowhere, so
    every call raises [NameError], here on the identity quaternion and on
    a quarter-turn quaternion alike. *)
Theorem power_raises_NameError (q : Quat) (e : R) :
  power q e = Raise NameError
  /\ power (mkQuat 0 0 0 1) 2 = Raise NameError
  /\ power (mkQuat 1 0 0 0) 2 = Raise NameError.
Proof. repeat split; reflexivity. Qed.

(** With assertions enabled the degenerate branch of [get_rotation_axis]
    stops at [assert False]. *)
Lemma get_rotation_axis_degenerate (q : Quat) :
  1 - qw q ^ 2 <= 0 -> get_rotation_axis q = Raise AssertionError.
Proof.
  intros H. unfold get_rotation_axis.
  rewrite bool_decide_eq_true_2 by lra. reflexivity.
Qed.

(** Off the degenerate branch the axis is (x, y, z) over [sqrt (1 - w^2)]. *)
Lemma get_rotation_axis_regular (q : Quat) :
  0 < 1 - qw q ^ 2 ->
  get_rotation_axis q
  = Ok (mkVec3 (qx q / sqrt (1 - qw q ^ 2)) (qy q / sqrt (1 - qw q ^ 2))
               (qz q / sqrt (1 - qw q ^ 2))).
Proof.
  intros H. unfold get_rotation_axis.
  rewrite bool_decide_eq_false_2 by lra.
  replace (1.0 - qw q ^ 2) with (1 - qw q ^ 2) by lra.
  assert (Hs : 0 < sqrt (1 - qw q ^ 2)) by (apply sqrt_lt_R0; exact H).
  unfold math.sqrt, float_div.
  rewrite bool_decide_eq_true_2 by lra. cbn [mbind result_bind].
  rewrite bool_decide_eq_false_2 by lra. cbn [mbind result_bind].
  do 2 f_equal; replace 1.0 with 1 by lra; field; lra.
Qed.

(** C4: [get_rotation_axis] is to return the default axis (0, 0, -1) for a
    quaternion with [1 - w^2 <= 0].  On the identity quaternion the code
    raises [AssertionError] instead of returning an axis. *)
Theorem get_rotation_axis_identity_raises :
  1 - qw (mkQuat 0 0 0 1) ^ 2 <= 0
  /\ get_rotation_axis (mkQuat 0 0 0 1) = Raise AssertionError.
Proof.
  assert (H : 1 - qw (mkQuat 0 0 0 1) ^ 2 <= 0) by (simpl; lra).
  split; [exact H|]. apply get_rotation_axis_degenerate, H.
Qed.

(** The assertion of [create_from_axis_rotation] is one-sided: it compares
    [norm - 1.0], not its absolute value, with 0.01. *)
Lemma create_from_axis_rotation_cases (axis : Vec3) (theta : R) :
  create_from_axis_rotation axis theta
  = if bool_decide (numpy.linalg_norm (elems3 axis) - 1 < 0.01)
    then Ok (mkQuat (v0 axis * sin (theta * 0.5)) (v1 axis * sin (theta * 0.5))
                    (v2 axis * sin (theta * 0.5)) (cos (theta * 0.5)))
    else Raise AssertionError.
Proof.
  unfold create_from_axis_rotation.
  replace (numpy.linalg_norm (elems3 axis) - 1.0)
    with (numpy.linalg_norm (elems3 axis) - 1) by lra.
  destruct (bool_decide _); reflexivity.
Qed.

Lemma create_from_axis_rotation_raises_iff (axis : Vec3) (theta : R) :
  create_from_axis_rotation axis theta = Raise AssertionError
  <-> 0.01 <= numpy.linalg_norm (elems3 axis) - 1.
Proof.
  rewrite create_from_axis_rotation_cases.
  destruct (bool_decide_reflect
              (numpy.linalg_norm (elems3 axis) - 1 < 0.01)) as [Hlt|Hge].
  - split; [discriminate|lra].
  - split; [lra|reflexivity].
Qed.

(** C5: [create_from_axis_rotation] is to fail whenever the length of the
    axis differs from 1 by 0.01 or more.  The axis (0.5, 0, 0) has length
    0.5, yet the call with angle pi returns the quaternion (0.5, 0, 0, 0). *)
Theorem create_from_axis_rotation_accepts_short_axis :
  numpy.linalg_norm (elems3 (mkVec3 0.5 0 0)) = 0.5
  /\ 0.01 <= Rabs (numpy.linalg_norm (elems3 (mkVec3 0.5 0 0)) - 1)
  /\ create_from_axis_rotation (mkVec3 0.5 0 0) PI = Ok (mkQuat 0.5 0 0 0).
Proof.
  assert (Hn : numpy.linalg_norm (elems3 (mkVec3 0.5 0 0)) = 0.5).
  { unfold numpy.linalg_norm; simpl.
    replace (0.5 * 0.5 + (0 * 0 + (0 * 0 + 0))) with (0.5 * 0.5) by lra.
    apply sqrt_square. lra. }
  split; [exact Hn|]. split.
  - rewrite Hn. rewrite Rabs_left by lra. lra.
  - rewrite create_from_axis_rotation_cases, Hn.
    rewrite bool_decide_eq_true_2 by lra. simpl.
    replace (PI * 0.5) with (PI / 2) by lra.
    rewrite sin_PI2, cos_PI2. do 2 f_equal; lra.
Qed.

End quaternion_degenerate.

(** ** Rotation-invariant bounding boxes *)
Section aambb_boxes.

Import aambb.

(** What [numpy.empty] left in memory. *)
Variable u : Box.

Lemma centre_point_cube (r : R) : centre_point (cube r) = mkVec3 0 0 0.
Proof. unfold centre_point, cube, vscale, vadd; simpl. f_equal; lra. Qed.

(** A call on at least one row completes, hands back [None], and the cube
    is in the array that [written] names. *)
Lemma create_from_points_eval (p : Vec3) (ps : list Vec3)
    (out : option loc) (h : store) :
  create_from_points u (p :: ps) out h
  = Ok (PyNone,
        <[written out h :=
            cube (vector.length
                    (elems3 (foldl numpy.maximum
                               (mkVec3 (Rabs (v0 p)) (Rabs (v1 p)) (Rabs (v2 p)))
                               (numpy.absolute ps))))]>
          (match out with Some _ => h | None => h ++ [u] end)).
Proof. destruct out; reflexivity. Qed.

Lemma create_from_points_empty (out : option loc) (h : store) :
  create_from_points u [] out h = Raise ValueError.
Proof. destruct out; reflexivity. Qed.

(** With an [out] array, the array receives the cube of half-extent
    [length (amax |points|)]. *)
Lemma create_from_points_writes_out (points : list Vec3) (l : loc) (h : store) :
  points <> [] ->
  exists m,
    numpy.amax (numpy.absolute points) = Ok m
    /\ create_from_points u points (Some l) h
       = Ok (PyNone, <[l := cube (vector.length (elems3 m))]> h).
Proof.
  destruct points as [|p ps]; [congruence|]. intros _.
  eexists. split; [reflexivity|]. apply create_from_points_eval.
Qed.

Lemma create_from_bounds_raises (min max : Vec3) (out : option loc) (h : store) :
  create_from_bounds u min max out h = Raise TypeError.
Proof. reflexivity. Qed.

Lemma add_points_raises (b : Box) (points : list Vec3)
    (out : option loc) (h : store) :
  add_points u b points out h = Raise TypeError.
Proof. destruct out; reflexivity. Qed.

Lemma written_lookup (out : option loc) (h : store) (b : Box) :
  valid_out out h ->
  <[written out h := b]> (match out with Some _ => h | None => h ++ [u] end)
    !! written out h = Some b.
Proof.
  intros Hv. apply list_lookup_insert_eq.
  destruct out as [l|]; simpl in *; [exact Hv|].
  rewrite length_app; simpl. lia.
Qed.

(** C1: [create_from_points] is to return the box
    [[(-r,-r,-r), (r,r,r)]] as a new value when no [out] is passed.  The
    code builds that box in a fresh array and then falls off the end of the
    function: for every non-empty list of points the call evaluates to
    [None]; for the single point (1, -2, 2), of length 3, the cube of
    half-extent 3 is left in an array nobody holds. *)
Theorem create_from_points_returns_None :
  (forall (p : Vec3) (ps : list Vec3) (h : store),
     exists h', create_from_points u (p :: ps) None h = Ok (PyNone, h'))
  /\ create_from_points u [mkVec3 1 (-2) 2] None [] = Ok (PyNone, [cube 3]).
Proof.
  split.
  - intros p ps h. eexists. apply create_from_points_eval.
  - rewrite create_from_points_eval. simpl.
    unfold vector.length, vector.squared_length; simpl.
    rewrite (Rabs_right 1), (Rabs_left (-2)), (Rabs_right 2) by lra.
    replace (1 * 1 + (- -2 * - -2 + (2 * 2 + 0))) with (3 * 3) by ring.
    rewrite sqrt_square by lra. reflexivity.
Qed.

(** C7: whatever array a construction or growth operation
    ([create_from_points], [create_from_bounds], [create_from_aabbs],
    [add_points], [add_aabbs]) has written when it completes holds a box
    whose [centre_point] is (0, 0, 0), and whose minimum corner is the
    negation of its maximum corner. *)
Theorem aambb_centre_is_origin (op : operation) (out : option loc)
    (h h' : store) (r : pyret) :
  valid_out out h ->
  call u op out h = Ok (r, h') ->
  exists box,
    h' !! written out h = Some box
    /\ centre_point box = mkVec3 0 0 0
    /\ minimum box = vneg (maximum box).
Proof.
  intros Hv Hcall.
  assert (Hpoints : forall points,
            create_from_points u points out h = Ok (r, h') ->
            exists box, h' !! written out h = Some box
              /\ centre_point box = mkVec3 0 0 0
              /\ minimum box = vneg (maximum box)).
  { intros [|p ps] Hc.
    - rewrite create_from_points_empty in Hc. discriminate.
    - rewrite create_from_points_eval in Hc. injection Hc as _ <-.
      eexists. split; [apply written_lookup, Hv|].
      split; [apply centre_point_cube|reflexivity]. }
  destruct op as [points|mn mx|aabbs|b points|b aabbs]; simpl in Hcall.
  - apply (Hpoints points Hcall).
  - rewrite create_from_bounds_raises in Hcall. discriminate.
  - apply (Hpoints (reshape_rows aabbs) Hcall).
  - rewrite add_points_raises in Hcall. discriminate.
  - unfold add_aabbs in Hcall. rewrite add_points_raises in Hcall.
    discriminate.
Qed.

(** C8: [add_points] and [add_aabbs] are to grow a box so that the result
    contains it.  The code passes the points and the two corners to
    [numpy.vstack] as three positional arguments, so every call raises
    [TypeError] and no box is produced, grown or otherwise. *)
Theorem add_points_raises_TypeError (b : Box) (out : option loc) (h : store) :
  (forall points : list Vec3, add_points u b points out h = Raise TypeError)
  /\ (forall aabbs : list Box, add_aabbs u b aabbs out h = Raise TypeError)
  /\ add_points u (cube 1) [mkVec3 2 0 0] None [] = Raise TypeError.
Proof.
  split; [|split].
  - intros points. apply add_points_raises.
  - intros aabbs. apply add_points_raises.
  - reflexivity.
Qed.

End aambb_boxes.

(** The store holds one array; the two points (1, -2, 2) and (0, 0, -3)
    are written into it as an AAMBB. *)
Lemma aambb_centre_is_origin_witness :
  aambb.valid_out (Some 0%nat) [aambb.cube 0]
  /\ exists h',
       aambb.call (aambb.cube 0)
         (aambb.CreateFromPoints [mkVec3 1 (-2) 2; mkVec3 0 0 (-3)])
         (Some 0%nat) [aambb.cube 0] = Ok (aambb.PyNone, h')
       /\ exists box,
            h' !! 0%nat = Some box
            /\ aambb.centre_point box = mkVec3 0 0 0
            /\ aambb.minimum box = vneg (aambb.maximum box).
Proof.
  assert (Hv : aambb.valid_out (Some 0%nat) [aambb.cube 0]) by (simpl; lia).
  split; [exact Hv|].
  eexists. split; [apply create_from_points_eval|].
  exact (aambb_centre_is_origin (aambb.cube 0)
           (aambb.CreateFromPoints [mkVec3 1 (-2) 2; mkVec3 0 0 (-3)])
           (Some 0%nat) [aambb.cube 0] _ aambb.PyNone Hv
           (create_from_points_eval _ _ _ _ _)).
Defined.

(** ** The reduction that growth is built on *)
Section reduction.

Lemma foldl_maximum_ge_acc (l : list Vec3) (acc : Vec3) :
  v0 acc <= v0 (foldl numpy.maximum acc l)
  /\ v1 acc <= v1 (foldl numpy.maximum acc l)
  /\ v2 acc <= v2 (foldl numpy.maximum acc l).
Proof.
  revert acc. induction l as [|p l IH]; intros acc; simpl.
  - lra.
  - destruct (IH (numpy.maximum acc p)) as (H0 & H1 & H2). simpl in *.
    pose proof (Rmax_l (v0 acc) (v0 p)). pose proof (Rmax_l (v1 acc) (v1 p)).
    pose proof (Rmax_l (v2 acc) (v2 p)). lra.
Qed.

Lemma foldl_maximum_ge_elem (l : list Vec3) (acc v : Vec3) :
  In v l ->
  v0 v <= v0 (foldl numpy.maximum acc l)
  /\ v1 v <= v1 (foldl numpy.maximum acc l)
  /\ v2 v <= v2 (foldl numpy.maximum acc l).
Proof.
  revert acc. induction l as [|p l IH]; intros acc Hin; simpl in *.
  - contradiction.
  - destruct Hin as [->|Hin]; [|apply IH, Hin].
    destruct (foldl_maximum_ge_acc l (numpy.maximum acc v)) as (H0 & H1 & H2).
    simpl in *.
    pose proof (Rmax_r (v0 acc) (v0 v)). pose proof (Rmax_r (v1 acc) (v1 v)).
    pose proof (Rmax_r (v2 acc) (v2 v)). lra.
Qed.

(** [amax] dominates every row it reduces over. *)
Lemma amax_ge_row (values : list Vec3) (m v : Vec3) :
  numpy.amax values = Ok m -> In v values ->
  v0 v <= v0 m /\ v1 v <= v1 m /\ v2 v <= v2 m.
Proof.
  destruct values as [|p ps]; [discriminate|]. simpl.
  intros [= <-] [->|Hin].
  - apply foldl_maximum_ge_acc.
  - apply foldl_maximum_ge_elem, Hin.
Qed.

(** A coordinate is at most the Euclidean length. *)
Lemma coordinate_le_length (m : Vec3) :
  v0 m <= vector.length (elems3 m)
  /\ v1 m <= vector.length (elems3 m)
  /\ v2 m <= vector.length (elems3 m).
Proof.
  unfold vector.length, vector.squared_length; simpl.
  assert (H : forall a s, a * a <= s -> a <= sqrt s).
  { intros a s Has. apply Rle_trans with (Rabs a); [apply Rle_abs|].
    rewrite <- sqrt_Rsqr_abs. apply sqrt_le_1_alt. unfold Rsqr. exact Has. }
  repeat split; apply H; nra.
Qed.

(** Had the rows of [points] been stacked with the two corners of a box,
    as [numpy.vstack] does when it is given one sequence, the half-extent
    found by the reduction would bound every coordinate of both corners:
    the grown box would contain the old one. *)
Lemma stacked_extent_covers_box (b : aambb.Box) (points : list Vec3) (m : Vec3) :
  numpy.vstack [points ++ [aambb.row0 b; aambb.row1 b]]
    ≫= (fun values => numpy.amax (numpy.absolute values)) = Ok m ->
  let r := vector.length (elems3 m) in
  forall corner, corner = aambb.row0 b \/ corner = aambb.row1 b ->
    Rabs (v0 corner) <= r /\ Rabs (v1 corner) <= r /\ Rabs (v2 corner) <= r.
Proof.
  simpl. intros Hm corner Hc.
  set (a := mkVec3 (Rabs (v0 corner)) (Rabs (v1 corner)) (Rabs (v2 corner))).
  assert (Hin : In a (numpy.absolute (points ++ [aambb.row0 b; aambb.row1 b]))).
  { unfold numpy.absolute. apply in_map_iff. exists corner. split; [reflexivity|].
    apply in_app_iff. right. simpl. destruct Hc as [->| ->]; auto. }
  destruct (amax_ge_row _ m a Hm Hin) as (H0 & H1 & H2).
  destruct (coordinate_le_length m) as (L0 & L1 & L2).
  simpl in *. lra.
Qed.

End reduction.

(** ** Ray against box *)
Section ray_queries.

Import geometric_tests.

Lemma axis_slab_inside (o d lo hi : R) :
  lo < o < hi ->
  straddles_zero (axis_slab o d lo hi)
  /\ (d <> 0 -> is_span (axis_slab o d lo hi)).
Proof.
  intros [Hlo Hhi]. unfold axis_slab.
  destruct (bool_decide_reflect (d = 0)) as [Hd|Hd].
  - rewrite !bool_decide_eq_true_2 by lra. simpl. split; [exact I|tauto].
  - split; [|intros _; exact I]. simpl.
    assert (H1 : (lo - o) / d * d = lo - o) by (field; exact Hd).
    assert (H2 : (hi - o) / d * d = hi - o) by (field; exact Hd).
    set (t1 := (lo - o) / d) in *. set (t2 := (hi - o) / d) in *.
    unfold Rmin, Rmax. destruct (Rle_dec t1 t2); nra.
Qed.

Lemma meet_straddles (a b : slab) :
  straddles_zero a -> straddles_zero b ->
  straddles_zero (meet a b) /\ (is_span a \/ is_span b -> is_span (meet a b)).
Proof.
  destruct a as [| |a_lo a_hi], b as [| |b_lo b_hi]; simpl; try tauto.
  intros [Ha1 Ha2] [Hb1 Hb2]. split; [|tauto]. split.
  - apply Rmax_lub_lt; assumption.
  - apply Rmin_glb_lt; assumption.
Qed.

(** When the interval exists and starts before 0, the exit point is given. *)
Lemma ray_intersect_aabb_exit (r : ray.Ray) (box : aambb.Box)
    (t_enter t_exit : R) :
  ray_interval r box = Span t_enter t_exit ->
  t_enter <= t_exit -> 0 <= t_exit -> t_enter < 0 ->
  ray_intersect_aabb r box = Some (point_at r t_exit).
Proof.
  intros Hi H1 H2 H3. unfold ray_intersect_aabb. rewrite Hi.
  rewrite (bool_decide_eq_false_2 (t_enter > t_exit)) by lra.
  rewrite (bool_decide_eq_false_2 (t_exit < 0)) by lra.
  rewrite (bool_decide_eq_true_2 (t_enter < 0)) by lra. reflexivity.
Qed.

(** When the interval exists and starts at or after 0, the entry point. *)
Lemma ray_intersect_aabb_entry (r : ray.Ray) (box : aambb.Box)
    (t_enter t_exit : R) :
  ray_interval r box = Span t_enter t_exit ->
  t_enter <= t_exit -> 0 <= t_enter ->
  ray_intersect_aabb r box = Some (point_at r t_enter).
Proof.
  intros Hi H1 H2. unfold ray_intersect_aabb. rewrite Hi.
  rewrite (bool_decide_eq_false_2 (t_enter > t_exit)) by lra.
  rewrite (bool_decide_eq_false_2 (t_exit < 0)) by lra.
  rewrite (bool_decide_eq_false_2 (t_enter < 0)) by lra. reflexivity.
Qed.

Lemma point_at_injective (r : ray.Ray) (s t : R) :
  ray.direction r <> mkVec3 0 0 0 -> point_at r s = point_at r t -> s = t.
Proof.
  intros Hd Heq. unfold point_at, vadd, vscale in Heq.
  destruct (ray.direction r) as [d0 d1 d2]; simpl in Heq.
  injection Heq as E0 E1 E2.
  destruct (Req_dec_T s t) as [|Hne]; [assumption|exfalso].
  apply Hd. f_equal; nra.
Qed.

(** From strictly inside the box, the ray's interval is bounded and has 0
    strictly inside it. *)
Lemma inside_interval (r : ray.Ray) (box : aambb.Box) :
  strictly_inside (ray.origin r) box ->
  ray.direction r <> mkVec3 0 0 0 ->
  exists t_enter t_exit,
    ray_interval r box = Span t_enter t_exit /\ t_enter < 0 < t_exit.
Proof.
  intros (Hx & Hy & Hz) Hd.
  assert (H : straddles_zero (ray_interval r box)
              /\ is_span (ray_interval r box)).
  { unfold ray_interval.
    set (d := ray.direction r) in *.
    destruct (axis_slab_inside _ (v0 d) _ _ Hx) as [Sx Px].
    destruct (axis_slab_inside _ (v1 d) _ _ Hy) as [Sy Py].
    destruct (axis_slab_inside _ (v2 d) _ _ Hz) as [Sz Pz].
    destruct (meet_straddles _ _ Sy Sz) as [Syz Pyz].
    destruct (meet_straddles _ _ Sx Syz) as [Sall Pall].
    split; [exact Sall|]. apply Pall.
    destruct (Req_dec_T (v0 d) 0) as [E0|N0]; [|left; apply Px, N0].
    right. apply Pyz.
    destruct (Req_dec_T (v1 d) 0) as [E1|N1]; [|left; apply Py, N1].
    right. apply Pz. intros E2. apply Hd.
    destruct d as [d0 d1 d2]; simpl in *. congruence. }
  destruct (ray_interval r box) as [| |t_enter t_exit]; simpl in H; try tauto.
  exists t_enter, t_exit. split; [reflexivity|tauto].
Qed.

Lemma ray_1_interval :
  ray_interval test_geometric_tests.ray_1 test_geometric_tests.aabb
  = Span (-1) 1.
Proof.
  unfold ray_interval, test_geometric_tests.ray_1, test_geometric_tests.aabb,
    axis_slab; simpl.
  rewrite (bool_decide_eq_true_2 (0.0 = 0)) by lra.
  rewrite (bool_decide_eq_true_2 (-1.0 <= 0.5)) by lra.
  rewrite (bool_decide_eq_true_2 (0.5 <= 1.0)) by lra.
  rewrite (bool_decide_eq_false_2 (-1.0 = 0)) by lra. simpl.
  replace ((-1.0 - 0.0) / -1.0) with 1 by lra.
  replace ((1.0 - 0.0) / -1.0) with (-1) by lra.
  rewrite Rmin_right, Rmax_left by lra. reflexivity.
Qed.

(** The second ray of the test starts outside the box: the entry point. *)
Lemma ray_2_entry_point :
  ray_intersect_aabb test_geometric_tests.ray_2 test_geometric_tests.aabb
  = Some test_geometric_tests.ray_2_expected.
Proof.
  assert (Hi : ray_interval test_geometric_tests.ray_2
                 test_geometric_tests.aabb = Span 1 3).
  { unfold ray_interval, test_geometric_tests.ray_2,
      test_geometric_tests.aabb, axis_slab; simpl.
    rewrite (bool_decide_eq_false_2 (-1.0 = 0)) by lra. simpl.
    replace ((-1.0 - 2.0) / -1.0) with 3 by lra.
    replace ((1.0 - 2.0) / -1.0) with 1 by lra.
    rewrite (Rmin_right 3 1), (Rmax_left 3 1) by lra.
    rewrite (Rmax_left 1 1), (Rmin_left 3 3) by lra.
    rewrite (Rmax_left 1 1), (Rmin_left 3 3) by lra. reflexivity. }
  rewrite (ray_intersect_aabb_entry _ _ _ _ Hi) by lra.
  unfold point_at, test_geometric_tests.ray_2,
    test_geometric_tests.ray_2_expected, vadd, vscale; simpl.
  do 2 f_equal; lra.
Qed.

(** C2: for every ray whose origin lies strictly inside an AABB the entry
    parameter [t_enter] is negative, and [ray_intersect_aabb] returns the
    exit point [origin + t_exit * direction], which is not the entry point;
    for the box [[(-1,-1,-1), (1,1,1)]] and the ray from (0.5, 0.5, 0.0)
    along (0, 0, -1) the returned point is (0.5, 0.5, -1.0). *)
Theorem ray_intersect_aabb_exit_point :
  (forall (r : ray.Ray) (box : aambb.Box),
     strictly_inside (ray.origin r) box ->
     ray.direction r <> mkVec3 0 0 0 ->
     exists t_enter t_exit,
       ray_interval r box = Span t_enter t_exit
       /\ t_enter < 0 < t_exit
       /\ ray_intersect_aabb r box = Some (point_at r t_exit)
       /\ ray_intersect_aabb r box <> Some (point_at r t_enter))
  /\ ray_intersect_aabb test_geometric_tests.ray_1 test_geometric_tests.aabb
     = Some test_geometric_tests.ray_1_expected.
Proof.
  split.
  - intros r box Hin Hd.
    destruct (inside_interval r box Hin Hd) as (t_enter & t_exit & Hi & Hlt).
    exists t_enter, t_exit.
    pose proof (ray_intersect_aabb_exit r box _ _ Hi) as Hexit.
    rewrite Hexit by lra. repeat split; try lra; try assumption.
    intros Heq.
    assert (Hp : point_at r t_exit = point_at r t_enter) by congruence.
    apply (point_at_injective r _ _ Hd) in Hp. lra.
  - rewrite (ray_intersect_aabb_exit _ _ _ _ ray_1_interval) by lra.
    unfold point_at, test_geometric_tests.ray_1,
      test_geometric_tests.ray_1_expected, vadd, vscale; simpl.
    do 2 f_equal; lra.
Qed.

(** The first ray of the test starts strictly inside the box. *)
Lemma ray_intersect_aabb_exit_point_witness :
  strictly_inside (ray.origin test_geometric_tests.ray_1)
    test_geometric_tests.aabb
  /\ ray.direction test_geometric_tests.ray_1 <> mkVec3 0 0 0
  /\ exists t_enter t_exit,
       ray_interval test_geometric_tests.ray_1 test_geometric_tests.aabb
       = Span t_enter t_exit
       /\ t_enter < 0 < t_exit
       /\ ray_intersect_aabb test_geometric_tests.ray_1
            test_geometric_tests.aabb
          = Some (point_at test_geometric_tests.ray_1 t_exit)
       /\ ray_intersect_aabb test_geometric_tests.ray_1
            test_geometric_tests.aabb
          <> Some (point_at test_geometric_tests.ray_1 t_enter).
Proof.
  assert (Hin : strictly_inside (ray.origin test_geometric_tests.ray_1)
                  test_geometric_tests.aabb).
  { unfold strictly_inside; simpl. lra. }
  assert (Hd : ray.direction test_geometric_tests.ray_1 <> mkVec3 0 0 0).
  { simpl. intros H. injection H as _ _ H. lra. }
  split; [exact Hin|]. split; [exact Hd|].
  exact (proj1 ray_intersect_aabb_exit_point _ _ Hin Hd).
Defined.

End ray_queries.

(** * Further properties of the code *)

(** ** Building quaternions and taking them apart *)
Section quaternion_construction.

Import quaternion.

Lemma sin_cos_squares (x : R) : sin x * sin x + cos x * cos x = 1.
Proof. pose proof (sin2_cos2 x) as H. unfold Rsqr in H. exact H. Qed.

Lemma length_vec3_unfold (v : Vec3) :
  vector.length (elems3 v) = sqrt (v0 v * v0 v + v1 v * v1 v + v2 v * v2 v).
Proof. unfold vector.length, vector.squared_length; simpl. f_equal. ring. Qed.

Lemma norm_unfold (v : Vec3) :
  numpy.linalg_norm (elems3 v)
  = sqrt (v0 v * v0 v + v1 v * v1 v + v2 v * v2 v).
Proof. unfold numpy.linalg_norm; simpl. f_equal. ring. Qed.

Lemma norm_of_unit_squares (a b c : R) :
  a * a + b * b + c * c = 1 -> numpy.linalg_norm (elems3 (mkVec3 a b c)) = 1.
Proof. intros H. rewrite norm_unfold; simpl. rewrite H. apply sqrt_1. Qed.

Lemma norm_one_squares (axis : Vec3) :
  numpy.linalg_norm (elems3 axis) = 1 ->
  v0 axis * v0 axis + v1 axis * v1 axis + v2 axis * v2 axis = 1.
Proof.
  rewrite norm_unfold. intros H.
  rewrite <- (sqrt_sqrt (v0 axis * v0 axis + v1 axis * v1 axis
                         + v2 axis * v2 axis)) by nra.
  rewrite H. ring.
Qed.

(** A unit axis passes the assertion. *)
Lemma unit_axis_accepted (axis : Vec3) (theta : R) :
  numpy.linalg_norm (elems3 axis) = 1 ->
  create_from_axis_rotation axis theta
  = Ok (mkQuat (v0 axis * sin (theta * 0.5)) (v1 axis * sin (theta * 0.5))
               (v2 axis * sin (theta * 0.5)) (cos (theta * 0.5))).
Proof.
  intros H. rewrite create_from_axis_rotation_cases, H.
  rewrite bool_decide_eq_true_2 by lra. reflexivity.
Qed.

Lemma length_three_four_fifths : length (mkQuat 0 0 (3 / 5) (4 / 5)) = 1.
Proof.
  unfold length, vector.length, vector.squared_length; simpl.
  replace (0 * 0 + (0 * 0 + (3 / 5 * (3 / 5) + (4 / 5 * (4 / 5) + 0))))
    with 1 by field.
  apply sqrt_1.
Qed.

Lemma non_zero_1_2_2_4 : is_non_zero_length (mkQuat 1 2 2 4) = true.
Proof.
  unfold is_non_zero_length, is_zero_length; simpl.
  rewrite (bool_decide_eq_false_2 (1 = 2)) by lra. reflexivity.
Qed.

(** X1: the rotations about x, y and z are [create_from_axis_rotation] at
    the three unit axes, for every angle. *)
Theorem axis_rotations_specialise (theta : R) :
  create_from_axis_rotation (mkVec3 1 0 0) theta
    = Ok (create_from_x_rotation theta)
  /\ create_from_axis_rotation (mkVec3 0 1 0) theta
    = Ok (create_from_y_rotation theta)
  /\ create_from_axis_rotation (mkVec3 0 0 1) theta
    = Ok (create_from_z_rotation theta).
Proof.
  repeat split;
    rewrite unit_axis_accepted by (apply norm_of_unit_squares; ring);
    unfold create_from_x_rotation, create_from_y_rotation,
      create_from_z_rotation; simpl; do 2 f_equal; ring.
Qed.

(** X2: for an axis of length exactly 1, [create_from_axis_rotation]
    returns a quaternion of length 1, whatever the angle. *)
Theorem create_from_axis_rotation_unit (axis : Vec3) (theta : R) :
  numpy.linalg_norm (elems3 axis) = 1 ->
  exists q, create_from_axis_rotation axis theta = Ok q /\ length q = 1.
Proof.
  intros H. rewrite (unit_axis_accepted _ _ H). eexists; split; [reflexivity|].
  pose proof (norm_one_squares axis H) as Hs.
  pose proof (sin_cos_squares (theta * 0.5)) as Ht.
  unfold length, vector.length, vector.squared_length; simpl.
  set (s := sin _) in *. set (c := cos _) in *.
  replace (v0 axis * s * (v0 axis * s)
           + (v1 axis * s * (v1 axis * s)
              + (v2 axis * s * (v2 axis * s) + (c * c + 0))))
    with ((v0 axis * v0 axis + v1 axis * v1 axis + v2 axis * v2 axis)
          * (s * s) + c * c) by ring.
  rewrite Hs. replace (1 * (s * s) + c * c) with 1 by lra. apply sqrt_1.
Qed.

(** X3: whenever [create_from_axis_rotation axis theta] returns a
    quaternion and [0 <= theta <= 2 pi], [get_rotation_angle] of that
    quaternion is [theta] again. *)
Theorem rotation_angle_round_trip (axis : Vec3) (theta : R) (q : Quat) :
  create_from_axis_rotation axis theta = Ok q ->
  0 <= theta <= 2 * PI ->
  get_rotation_angle q = Ok theta.
Proof.
  intros Hq Ht. rewrite create_from_axis_rotation_cases in Hq.
  destruct (bool_decide _); [|discriminate]. injection Hq as <-.
  unfold get_rotation_angle, math.acos; simpl.
  pose proof (COS_bound (theta * 0.5)) as [Hc1 Hc2].
  rewrite bool_decide_eq_true_2 by lra. simpl.
  rewrite acos_cos by lra. f_equal. lra.
Qed.

(** X4: for an axis of length 1 and [0 < theta < 2 pi],
    [get_rotation_axis] of [create_from_axis_rotation axis theta] is the
    axis again. *)
Theorem rotation_axis_round_trip (axis : Vec3) (theta : R) :
  numpy.linalg_norm (elems3 axis) = 1 ->
  0 < theta < 2 * PI ->
  create_from_axis_rotation axis theta ≫= get_rotation_axis = Ok axis.
Proof.
  intros H Ht. rewrite (unit_axis_accepted _ _ H). cbn [mbind result_bind].
  pose proof (sin_cos_squares (theta * 0.5)) as Hsc.
  assert (Hs : 0 < sin (theta * 0.5)) by (apply sin_gt_0; lra).
  set (s := sin _) in *. set (c := cos _) in *.
  rewrite get_rotation_axis_regular by (simpl; nra). simpl.
  replace (1 - c * (c * 1)) with (s * s) by lra.
  rewrite sqrt_square by lra.
  destruct axis as [a0 a1 a2]; simpl. do 2 f_equal; field; lra.
Qed.

(** X5: for a quaternion of length 1 with [-1 < w < 1],
    [get_rotation_axis] returns an axis of length 1. *)
Theorem get_rotation_axis_unit (q : Quat) :
  length q = 1 -> -1 < qw q < 1 ->
  exists axis,
    get_rotation_axis q = Ok axis /\ vector.length (elems3 axis) = 1.
Proof.
  intros Hu Hw. pose proof (length_unit_squared q Hu) as Hs.
  rewrite squared_length_unfold in Hs.
  assert (Hpos : 0 < 1 - qw q ^ 2) by (simpl; nra).
  rewrite get_rotation_axis_regular by exact Hpos.
  eexists; split; [reflexivity|]. rewrite length_vec3_unfold; simpl.
  simpl in Hpos.
  assert (Hr : 0 < sqrt (1 - qw q * (qw q * 1)))
    by (apply sqrt_lt_R0; exact Hpos).
  assert (Hrr : sqrt (1 - qw q * (qw q * 1)) * sqrt (1 - qw q * (qw q * 1))
                = 1 - qw q * (qw q * 1)) by (apply sqrt_sqrt; lra).
  set (r := sqrt _) in *.
  replace (qx q / r * (qx q / r) + qy q / r * (qy q / r)
           + qz q / r * (qz q / r))
    with ((qx q * qx q + qy q * qy q + qz q * qz q) / (r * r))
    by (field; lra).
  rewrite Hrr.
  replace (qx q * qx q + qy q * qy q + qz q * qz q)
    with (1 - qw q * (qw q * 1)) by lra.
  unfold Rdiv. rewrite Rinv_r by lra. apply sqrt_1.
Qed.

(** X6: [get_rotation_axis] returns an axis exactly when [-1 < w < 1]; for
    every other quaternion the call raises. *)
Theorem get_rotation_axis_returns_iff (q : Quat) :
  (exists axis, get_rotation_axis q = Ok axis) <-> -1 < qw q < 1.
Proof.
  split.
  - intros [axis H]. destruct (Rle_dec (1 - qw q ^ 2) 0) as [Hle|Hgt].
    + rewrite get_rotation_axis_degenerate in H by exact Hle. discriminate.
    + simpl in Hgt. nra.
  - intros Hw. rewrite get_rotation_axis_regular by (simpl; nra). eauto.
Qed.

(** X7: [get_rotation_angle] raises [ValueError] exactly when [w] is
    outside [[-1, 1]], and an angle it returns lies in [[0, 2 pi]]. *)
Theorem get_rotation_angle_range (q : Quat) :
  (get_rotation_angle q = Raise ValueError <-> ~ (-1 <= qw q <= 1))
  /\ (forall angle, get_rotation_angle q = Ok angle -> 0 <= angle <= 2 * PI).
Proof.
  unfold get_rotation_angle, math.acos.
  destruct (bool_decide_reflect (-1 <= qw q <= 1)) as [Hin|Hout];
    cbn [mbind result_bind].
  - split; [split; [discriminate|tauto]|].
    intros angle [= <-]. pose proof (acos_bound (qw q)). lra.
  - split; [tauto|discriminate].
Qed.

(** X8: [create_from_inverse_of_eulers] is the conjugate of
    [create_from_eulers] on the same angles, and [cross] of the two, in
    either order, is (0, 0, 0, 1). *)
Theorem eulers_inverse_is_conjugate (eulers : Vec3) :
  create_from_inverse_of_eulers eulers = conjugate (create_from_eulers eulers)
  /\ cross (create_from_eulers eulers) (create_from_inverse_of_eulers eulers)
     = mkQuat 0 0 0 1
  /\ cross (create_from_inverse_of_eulers eulers) (create_from_eulers eulers)
     = mkQuat 0 0 0 1.
Proof.
  unfold create_from_inverse_of_eulers, create_from_eulers, conjugate, cross;
    simpl.
  pose proof (sin_cos_squares (v0 eulers * 0.5)) as Hy.
  pose proof (sin_cos_squares (v1 eulers * 0.5)) as Hp.
  pose proof (sin_cos_squares (v2 eulers * 0.5)) as Hr.
  set (sy := sin (v0 eulers * 0.5)) in *.
  set (cy := cos (v0 eulers * 0.5)) in *.
  set (sp := sin (v1 eulers * 0.5)) in *.
  set (cp := cos (v1 eulers * 0.5)) in *.
  set (sr := sin (v2 eulers * 0.5)) in *.
  set (cr := cos (v2 eulers * 0.5)) in *.
  assert (Hone : (sy * sy + cy * cy) * (sp * sp + cp * cp)
                 * (sr * sr + cr * cr) = 1).
  { rewrite Hy, Hp, Hr. ring. }
  repeat split; f_equal; try ring; rewrite <- Hone; ring.
Qed.

(** X9: the quaternions built by [create_from_eulers] and
    [create_from_inverse_of_eulers] have length 1, for all angles. *)
Theorem create_from_eulers_unit (eulers : Vec3) :
  length (create_from_eulers eulers) = 1
  /\ length (create_from_inverse_of_eulers eulers) = 1.
Proof.
  unfold length, vector.length, vector.squared_length, create_from_eulers,
    create_from_inverse_of_eulers; simpl.
  pose proof (sin_cos_squares (v0 eulers * 0.5)) as Hy.
  pose proof (sin_cos_squares (v1 eulers * 0.5)) as Hp.
  pose proof (sin_cos_squares (v2 eulers * 0.5)) as Hr.
  set (sy := sin (v0 eulers * 0.5)) in *.
  set (cy := cos (v0 eulers * 0.5)) in *.
  set (sp := sin (v1 eulers * 0.5)) in *.
  set (cp := cos (v1 eulers * 0.5)) in *.
  set (sr := sin (v2 eulers * 0.5)) in *.
  set (cr := cos (v2 eulers * 0.5)) in *.
  assert (Hone : (sy * sy + cy * cy) * (sp * sp + cp * cp)
                 * (sr * sr + cr * cr) = 1).
  { rewrite Hy, Hp, Hr. ring. }
  split; rewrite <- sqrt_1; f_equal; rewrite <- Hone; ring.
Qed.

End quaternion_construction.

(** The z axis has length 1. *)
Lemma norm_z_axis : numpy.linalg_norm (elems3 (mkVec3 0 0 1)) = 1.
Proof. apply norm_of_unit_squares. ring. Qed.

Lemma half_turn_in_range : 0 < PI < 2 * PI.
Proof. pose proof PI_RGT_0. lra. Qed.

(** A half turn about z is a unit quaternion. *)
Lemma create_from_axis_rotation_unit_witness :
  numpy.linalg_norm (elems3 (mkVec3 0 0 1)) = 1
  /\ exists q,
       quaternion.create_from_axis_rotation (mkVec3 0 0 1) PI = Ok q
       /\ quaternion.length q = 1.
Proof.
  split; [exact norm_z_axis|].
  exact (create_from_axis_rotation_unit (mkVec3 0 0 1) PI norm_z_axis).
Defined.

(** The angle of a half turn about z is read back. *)
Lemma rotation_angle_round_trip_witness :
  quaternion.create_from_axis_rotation (mkVec3 0 0 1) PI
    = Ok (quaternion.mkQuat (0 * sin (PI * 0.5)) (0 * sin (PI * 0.5))
            (1 * sin (PI * 0.5)) (cos (PI * 0.5)))
  /\ 0 <= PI <= 2 * PI
  /\ quaternion.get_rotation_angle
       (quaternion.mkQuat (0 * sin (PI * 0.5)) (0 * sin (PI * 0.5))
          (1 * sin (PI * 0.5)) (cos (PI * 0.5))) = Ok PI.
Proof.
  pose proof (unit_axis_accepted (mkVec3 0 0 1) PI norm_z_axis) as Hq.
  assert (Hr : 0 <= PI <= 2 * PI) by (pose proof half_turn_in_range; lra).
  split; [exact Hq|]. split; [exact Hr|].
  exact (rotation_angle_round_trip (mkVec3 0 0 1) PI _ Hq Hr).
Defined.

(** The axis of a half turn about z is read back. *)
Lemma rotation_axis_round_trip_witness :
  numpy.linalg_norm (elems3 (mkVec3 0 0 1)) = 1
  /\ 0 < PI < 2 * PI
  /\ quaternion.create_from_axis_rotation (mkVec3 0 0 1) PI
       ≫= quaternion.get_rotation_axis = Ok (mkVec3 0 0 1).
Proof.
  split; [exact norm_z_axis|]. split; [exact half_turn_in_range|].
  exact (rotation_axis_round_trip (mkVec3 0 0 1) PI norm_z_axis
           half_turn_in_range).
Defined.

(** The unit quaternion (0, 0, 3/5, 4/5) has a unit axis. *)
Lemma get_rotation_axis_unit_witness :
  quaternion.length (quaternion.mkQuat 0 0 (3 / 5) (4 / 5)) = 1
  /\ exists axis,
       quaternion.get_rotation_axis (quaternion.mkQuat 0 0 (3 / 5) (4 / 5))
         = Ok axis
       /\ vector.length (elems3 axis) = 1.
Proof.
  split; [exact length_three_four_fifths|].
  apply (get_rotation_axis_unit _ length_three_four_fifths). simpl. lra.
Defined.

(** ** The algebra of [cross], [conjugate], [inverse] and [negate] *)
Section quaternion_products.

Import quaternion.

Lemma cross_squared_length_mul (a b : Quat) :
  squared_length (cross a b) = squared_length a * squared_length b.
Proof. rewrite !squared_length_unfold. destruct a, b; simpl. ring. Qed.

(** X10: [cross] is associative and has (0, 0, 0, 1) as a two-sided
    identity, and it is not commutative: some pair gives different
    products in the two orders. *)
Theorem cross_monoid :
  (forall a b c, cross a (cross b c) = cross (cross a b) c)
  /\ (forall a, cross (mkQuat 0 0 0 1) a = a /\ cross a (mkQuat 0 0 0 1) = a)
  /\ exists a b, cross a b <> cross b a.
Proof.
  split; [|split].
  - intros [] [] []. unfold cross. f_equal; ring.
  - intros []. unfold cross. split; f_equal; ring.
  - exists (mkQuat 1 0 0 0), (mkQuat 0 1 0 0). unfold cross. intros H.
    injection H as _ _ H _. lra.
Qed.

(** X11: the squared length of [cross a b] is the product of the squared
    lengths of [a] and [b]; so [cross] of two quaternions of length 1 has
    length 1. *)
Theorem cross_multiplies_lengths (a b : Quat) :
  squared_length (cross a b) = squared_length a * squared_length b
  /\ length (cross a b) = length a * length b.
Proof.
  split; [apply cross_squared_length_mul|].
  unfold length, vector.length. fold (squared_length (cross a b)).
  fold (squared_length a). fold (squared_length b).
  rewrite cross_squared_length_mul. apply sqrt_mult_alt.
  apply squared_length_nonneg.
Qed.

(** X12: [conjugate] reverses [cross]:
    [conjugate (cross a b) = cross (conjugate b) (conjugate a)]. *)
Theorem conjugate_cross (a b : Quat) :
  conjugate (cross a b) = cross (conjugate b) (conjugate a).
Proof. destruct a, b; unfold conjugate, cross; simpl. f_equal; ring. Qed.

(** X13: for a non-zero quaternion [q], [inverse q] is also a left
    inverse, [cross (inverse q) q = (0, 0, 0, 1)], and inverting twice
    gives [q] back. *)
Theorem inverse_properties (q : Quat) :
  is_non_zero_length q = true ->
  cross (inverse q) q = mkQuat 0 0 0 1 /\ inverse (inverse q) = q.
Proof.
  intros Hnz. pose proof (non_zero_squared_length q Hnz) as Hsq. split.
  - unfold inverse. rewrite squared_length_unfold in *.
    destruct q as [a b c d]; simpl in *. f_equal; field; exact Hsq.
  - unfold inverse. rewrite !squared_length_unfold in *.
    destruct q as [a b c d]; simpl in *.
    unfold qdiv, conjugate; simpl.
    f_equal; field; repeat split; first [exact Hsq|nra].
Qed.

(** X14: for a quaternion of length 1 the inverse is the conjugate. *)
Theorem inverse_unit_is_conjugate (q : Quat) :
  length q = 1 -> inverse q = conjugate q.
Proof.
  intros Hu. unfold inverse. rewrite (length_unit_squared q Hu).
  unfold qdiv. destruct q; unfold conjugate; simpl. f_equal; field.
Qed.

(** X15: the inverse of a product of non-zero quaternions is the product
    of the inverses in reverse order. *)
Theorem inverse_cross (a b : Quat) :
  is_non_zero_length a = true -> is_non_zero_length b = true ->
  inverse (cross a b) = cross (inverse b) (inverse a).
Proof.
  intros Ha Hb. pose proof (non_zero_squared_length a Ha) as Hsa.
  pose proof (non_zero_squared_length b Hb) as Hsb.
  unfold inverse. rewrite cross_squared_length_mul.
  rewrite !squared_length_unfold in *.
  destruct a as [a0 a1 a2 a3], b as [b0 b1 b2 b3]; simpl in *.
  unfold qdiv, conjugate, cross; simpl.
  f_equal; field; repeat split; assumption.
Qed.

(** X16: [is_zero_length] holds exactly when the squared length is 0, and
    [is_non_zero_length] exactly when the length is positive. *)
Theorem is_zero_length_iff (q : Quat) :
  (is_zero_length q = true <-> squared_length q = 0)
  /\ (is_non_zero_length q = true <-> 0 < length q).
Proof.
  assert (H1 : is_zero_length q = true <-> squared_length q = 0).
  { split.
    - intros H. apply is_zero_length_spec in H. subst q.
      rewrite squared_length_unfold; simpl. ring.
    - intros H. destruct (is_zero_length q) eqn:E; [reflexivity|exfalso].
      apply (non_zero_squared_length q); [|exact H].
      unfold is_non_zero_length. rewrite E. reflexivity. }
  split; [exact H1|].
  unfold is_non_zero_length, length, vector.length. fold (squared_length q).
  pose proof (squared_length_nonneg q) as Hn. split.
  - intros H. apply sqrt_lt_R0. apply negb_true_iff in H.
    destruct (Req_dec_T (squared_length q) 0) as [Hz|Hz]; [|lra].
    apply H1 in Hz. congruence.
  - intros H. apply negb_true_iff. apply not_true_is_false. intros E.
    apply H1 in E. rewrite E, sqrt_0 in H. lra.
Qed.

End quaternion_products.

Lemma inverse_properties_witness :
  quaternion.is_non_zero_length (quaternion.mkQuat 1 2 2 4) = true
  /\ quaternion.cross (quaternion.inverse (quaternion.mkQuat 1 2 2 4))
       (quaternion.mkQuat 1 2 2 4) = quaternion.mkQuat 0 0 0 1
  /\ quaternion.inverse (quaternion.inverse (quaternion.mkQuat 1 2 2 4))
     = quaternion.mkQuat 1 2 2 4.
Proof.
  split; [exact non_zero_1_2_2_4|].
  exact (inverse_properties _ non_zero_1_2_2_4).
Defined.

Lemma inverse_unit_is_conjugate_witness :
  quaternion.length (quaternion.mkQuat 0 0 (3 / 5) (4 / 5)) = 1
  /\ quaternion.inverse (quaternion.mkQuat 0 0 (3 / 5) (4 / 5))
     = quaternion.conjugate (quaternion.mkQuat 0 0 (3 / 5) (4 / 5)).
Proof.
  split; [exact length_three_four_fifths|].
  exact (inverse_unit_is_conjugate _ length_three_four_fifths).
Defined.

Lemma inverse_cross_witness :
  quaternion.is_non_zero_length (quaternion.mkQuat 1 2 2 4) = true
  /\ quaternion.inverse
       (quaternion.cross (quaternion.mkQuat 1 2 2 4)
          (quaternion.mkQuat 1 2 2 4))
     = quaternion.cross (quaternion.inverse (quaternion.mkQuat 1 2 2 4))
         (quaternion.inverse (quaternion.mkQuat 1 2 2 4)).
Proof.
  split; [exact non_zero_1_2_2_4|].
  exact (inverse_cross _ _ non_zero_1_2_2_4 non_zero_1_2_2_4).
Defined.

(** ** Rotating vectors: sizes, identity, composition *)
Section rotation_laws.

Import quaternion.

Variables from_vector4 from_vector3 : list R -> list R.

(** The inner function never raises [ValueError]. *)
Lemma apply_no_value_error (q : Quat) (vec3 : list R) :
  apply q vec3 <> Raise ValueError.
Proof.
  assert (G : forall (a : list R) i e, getitem a i = Raise e -> e = IndexError).
  { intros a i e. unfold getitem. destruct (_ !! _); congruence. }
  unfold apply.
  destruct (getitem _ 0) as [a|e] eqn:E0; cbn [mbind result_bind].
  2:{ apply G in E0. subst e. discriminate. }
  destruct (getitem _ 1) as [b|e] eqn:E1; cbn [mbind result_bind].
  2:{ apply G in E1. subst e. discriminate. }
  destruct (getitem _ 2) as [c|e] eqn:E2; cbn [mbind result_bind].
  2:{ apply G in E2. subst e. discriminate. }
  discriminate.
Qed.

(** On a non-zero vector the normalisation and the rescaling cancel: the
    result is the vector part of the sandwich product. *)
Lemma apply_to_vector_nonzero (q : Quat) (a b c : R) :
  [a; b; c] <> [0; 0; 0] ->
  apply_to_vector from_vector4 from_vector3 q [a; b; c]
  = Ok (vector_part (cross q (cross (mkQuat a b c 0) (conjugate q)))).
Proof.
  intros Hnz. pose proof (vec3_length_pos a b c Hnz) as HL.
  unfold apply_to_vector. rewrite bool_decide_eq_true_2 by reflexivity.
  unfold apply.
  cbn [vector.normalise map getitem lookup list_lookup mbind result_bind].
  rewrite zero_literal. set (L := vector.length [a; b; c]) in *.
  destruct q as [x y z w]. unfold vector_part, cross, conjugate; simpl.
  do 2 f_equal; [|f_equal; [|f_equal]]; field; lra.
Qed.

Lemma sandwich_vector_part_squared (q : Quat) (a b c : R) :
  vector.squared_length
    (vector_part (cross q (cross (mkQuat a b c 0) (conjugate q))))
  = squared_length q * squared_length q * vector.squared_length [a; b; c].
Proof.
  rewrite squared_length_unfold. destruct q as [x y z w].
  unfold vector.squared_length, vector_part, cross, conjugate; simpl. ring.
Qed.

(** X17: [apply_to_vector] raises [ValueError] exactly when the vector has
    neither 3 nor 4 components. *)
Theorem apply_to_vector_size_error (q : Quat) (vec : list R) :
  apply_to_vector from_vector4 from_vector3 q vec = Raise ValueError
  <-> List.length vec <> 3%nat /\ List.length vec <> 4%nat.
Proof.
  unfold apply_to_vector.
  destruct (bool_decide_reflect (List.length vec = 3%nat)) as [H3|H3].
  - split; [intros H; exfalso; exact (apply_no_value_error _ _ H)|tauto].
  - destruct (bool_decide_reflect (List.length vec = 4%nat)) as [H4|H4].
    + split; [|tauto]. intros H. exfalso.
      destruct (apply q (from_vector4 vec)) as [r|e] eqn:E;
        cbn [mbind result_bind] in H.
      * discriminate.
      * injection H as ->. exact (apply_no_value_error _ _ E).
    + tauto.
Qed.

(** X18: the quaternion (0, 0, 0, 1) leaves every non-zero 3-component
    vector as it is. *)
Theorem apply_to_vector_identity (a b c : R) :
  [a; b; c] <> [0; 0; 0] ->
  apply_to_vector from_vector4 from_vector3 (mkQuat 0 0 0 1) [a; b; c]
  = Ok [a; b; c].
Proof.
  intros Hnz. rewrite apply_to_vector_nonzero by exact Hnz.
  unfold vector_part, cross, conjugate; simpl.
  do 2 f_equal; [|f_equal; [|f_equal]]; ring.
Qed.

(** X19: for any quaternion [q], unit or not, and a non-zero 3-component
    vector, the length of the result is the squared length of [q] times
    the length of the vector. *)
Theorem apply_to_vector_scales_length (q : Quat) (a b c : R) :
  [a; b; c] <> [0; 0; 0] ->
  exists rotated,
    apply_to_vector from_vector4 from_vector3 q [a; b; c] = Ok rotated
    /\ vector.length rotated = squared_length q * vector.length [a; b; c].
Proof.
  intros Hnz. rewrite apply_to_vector_nonzero by exact Hnz.
  eexists; split; [reflexivity|].
  pose proof (squared_length_nonneg q) as Hn.
  unfold vector.length. rewrite sandwich_vector_part_squared.
  rewrite sqrt_mult_alt by nra. rewrite sqrt_square by exact Hn. reflexivity.
Qed.

(** X20: rotating a non-zero 3-component vector by a non-zero [q2] and
    then by [q1] is rotating it once by [cross q1 q2]. *)
Theorem apply_to_vector_compose (q1 q2 : Quat) (a b c : R) :
  is_non_zero_length q2 = true ->
  [a; b; c] <> [0; 0; 0] ->
  apply_to_vector from_vector4 from_vector3 q2 [a; b; c]
    ≫= apply_to_vector from_vector4 from_vector3 q1
  = apply_to_vector from_vector4 from_vector3 (cross q1 q2) [a; b; c].
Proof.
  intros Hq Hnz. pose proof (non_zero_squared_length q2 Hq) as Hsq.
  rewrite !apply_to_vector_nonzero by exact Hnz. cbn [mbind result_bind].
  unfold vector_part at 1.
  rewrite apply_to_vector_nonzero.
  - destruct q1 as [x1 y1 z1 w1], q2 as [x2 y2 z2 w2].
    unfold vector_part, cross, conjugate; simpl.
    do 2 f_equal; [|f_equal; [|f_equal]]; ring.
  - intros H.
    pose proof (sandwich_vector_part_squared q2 a b c) as Hs.
    unfold vector_part in Hs. rewrite H in Hs.
    assert (Hv : vector.squared_length [a; b; c] <> 0).
    { unfold vector.squared_length; simpl. intros Hz. apply Hnz.
      assert (a = 0) by nra. assert (b = 0) by nra. assert (c = 0) by nra.
      congruence. }
    unfold vector.squared_length at 1 in Hs; simpl in Hs.
    symmetry in Hs.
    replace (0 * 0 + (0 * 0 + (0 * 0 + 0))) with 0 in Hs by ring.
    apply Rmult_integral in Hs. destruct Hs as [Hs|Hs]; [|contradiction].
    apply Rmult_integral in Hs. destruct Hs; contradiction.
Qed.

(** X21: what the three axis rotations do to a non-zero vector (a, b, c):
    the component along the axis is kept and the other two are turned by
    [theta], with the sign of the sines as below. *)
Theorem axis_rotations_apply (theta a b c : R) :
  [a; b; c] <> [0; 0; 0] ->
  apply_to_vector from_vector4 from_vector3 (create_from_x_rotation theta)
    [a; b; c]
    = Ok [a; b * cos theta + c * sin theta; - b * sin theta + c * cos theta]
  /\ apply_to_vector from_vector4 from_vector3 (create_from_y_rotation theta)
       [a; b; c]
    = Ok [a * cos theta - c * sin theta; b; a * sin theta + c * cos theta]
  /\ apply_to_vector from_vector4 from_vector3 (create_from_z_rotation theta)
       [a; b; c]
    = Ok [a * cos theta + b * sin theta; - a * sin theta + b * cos theta; c].
Proof.
  intros Hnz. rewrite !apply_to_vector_nonzero by exact Hnz.
  unfold create_from_x_rotation, create_from_y_rotation, create_from_z_rotation.
  assert (Hcos : cos theta = cos (theta * 0.5) * cos (theta * 0.5)
                             - sin (theta * 0.5) * sin (theta * 0.5)).
  { rewrite <- cos_2a. f_equal. lra. }
  assert (Hsin : sin theta = 2 * sin (theta * 0.5) * cos (theta * 0.5)).
  { rewrite <- sin_2a. f_equal. lra. }
  pose proof (sin_cos_squares (theta * 0.5)) as Hsc.
  set (s := sin (theta * 0.5)) in *. set (co := cos (theta * 0.5)) in *.
  rewrite Hcos, Hsin.
  unfold vector_part, cross, conjugate; simpl.
  repeat split; do 2 f_equal;
    [|f_equal; [|f_equal]| |f_equal; [|f_equal]| |f_equal; [|f_equal]];
    try ring;
    match goal with
    | |- _ = ?r =>
        transitivity (r * (s * s + co * co)); [ring|rewrite Hsc; ring]
    end.
Qed.

(** X22: negating twice gives the quaternion back, and [negate q] turns
    every vector exactly as [q] does. *)
Theorem negate_same_rotation (q : Quat) :
  negate (negate q) = q
  /\ forall vec,
       apply_to_vector from_vector4 from_vector3 (negate q) vec
       = apply_to_vector from_vector4 from_vector3 q vec.
Proof.
  assert (E : -1.0 = -1) by lra. split.
  { destruct q as [x y z w]. unfold negate; simpl. rewrite !E. f_equal; ring. }
  assert (H : forall v, apply (negate q) v = apply q v).
  { intros v. unfold apply.
    destruct (getitem _ 0) as [a|e]; cbn [mbind result_bind]; [|reflexivity].
    destruct (getitem _ 1) as [b|e]; cbn [mbind result_bind]; [|reflexivity].
    destruct (getitem _ 2) as [c|e]; cbn [mbind result_bind]; [|reflexivity].
    destruct q as [x y z w]. unfold negate, cross, conjugate; simpl.
    rewrite !E. do 2 f_equal; [|f_equal; [|f_equal]]; ring. }
  intros vec. unfold apply_to_vector. rewrite !H. reflexivity.
Qed.

End rotation_laws.

Lemma vec_1_2_2_non_zero : [1; 2; 2] <> [0; 0; 0].
Proof. intros H. injection H as H. lra. Qed.

Lemma apply_to_vector_identity_witness :
  [1; 2; 2] <> [0; 0; 0]
  /\ quaternion.apply_to_vector (fun v => v) (fun v => v)
       (quaternion.mkQuat 0 0 0 1) [1; 2; 2] = Ok [1; 2; 2].
Proof.
  split; [exact vec_1_2_2_non_zero|].
  exact (apply_to_vector_identity _ _ 1 2 2 vec_1_2_2_non_zero).
Defined.

Lemma apply_to_vector_scales_length_witness :
  [1; 2; 2] <> [0; 0; 0]
  /\ exists rotated,
       quaternion.apply_to_vector (fun v => v) (fun v => v)
         (quaternion.mkQuat 1 2 2 4) [1; 2; 2] = Ok rotated
       /\ vector.length rotated
          = quaternion.squared_length (quaternion.mkQuat 1 2 2 4)
            * vector.length [1; 2; 2].
Proof.
  split; [exact vec_1_2_2_non_zero|].
  exact (apply_to_vector_scales_length _ _ _ 1 2 2 vec_1_2_2_non_zero).
Defined.

Lemma apply_to_vector_compose_witness :
  quaternion.is_non_zero_length (quaternion.mkQuat 1 2 2 4) = true
  /\ [1; 2; 2] <> [0; 0; 0]
  /\ quaternion.apply_to_vector (fun v => v) (fun v => v)
       (quaternion.mkQuat 1 2 2 4) [1; 2; 2]
       ≫= quaternion.apply_to_vector (fun v => v) (fun v => v)
            (quaternion.mkQuat 0 0 (3 / 5) (4 / 5))
     = quaternion.apply_to_vector (fun v => v) (fun v => v)
         (quaternion.cross (quaternion.mkQuat 0 0 (3 / 5) (4 / 5))
            (quaternion.mkQuat 1 2 2 4)) [1; 2; 2].
Proof.
  split; [exact non_zero_1_2_2_4|]. split; [exact vec_1_2_2_non_zero|].
  exact (apply_to_vector_compose _ _ _ _ 1 2 2 non_zero_1_2_2_4
           vec_1_2_2_non_zero).
Defined.

Lemma axis_rotations_apply_witness :
  [1; 2; 2] <> [0; 0; 0]
  /\ quaternion.apply_to_vector (fun v => v) (fun v => v)
       (quaternion.create_from_z_rotation PI) [1; 2; 2]
     = Ok [1 * cos PI + 2 * sin PI; - 1 * sin PI + 2 * cos PI; 2].
Proof.
  split; [exact vec_1_2_2_non_zero|].
  exact (proj2 (proj2 (axis_rotations_apply (fun v => v) (fun v => v)
                         PI 1 2 2 vec_1_2_2_non_zero))).
Defined.

(** ** What the AAMBB constructors write, and when *)
Section aambb_construction.

Import aambb.

Variable u : Box.

Lemma abs_coordinate_le_length (v : Vec3) :
  Rabs (v0 v) <= vector.length (elems3 v)
  /\ Rabs (v1 v) <= vector.length (elems3 v)
  /\ Rabs (v2 v) <= vector.length (elems3 v).
Proof.
  rewrite length_vec3_unfold.
  assert (H : forall a s, a * a <= s -> Rabs a <= sqrt s).
  { intros a s Has. rewrite <- sqrt_Rsqr_abs. apply sqrt_le_1_alt. exact Has. }
  repeat split; apply H; nra.
Qed.

Lemma foldl_maximum_le (l : list Vec3) (acc bound : Vec3) :
  v0 acc <= v0 bound /\ v1 acc <= v1 bound /\ v2 acc <= v2 bound ->
  (forall v, In v l ->
     v0 v <= v0 bound /\ v1 v <= v1 bound /\ v2 v <= v2 bound) ->
  v0 (foldl numpy.maximum acc l) <= v0 bound
  /\ v1 (foldl numpy.maximum acc l) <= v1 bound
  /\ v2 (foldl numpy.maximum acc l) <= v2 bound.
Proof.
  revert acc. induction l as [|p l IH]; intros acc Hacc Hl; simpl.
  - exact Hacc.
  - apply IH.
    + destruct (Hl p (or_introl eq_refl)) as (H0 & H1 & H2).
      destruct Hacc as (A0 & A1 & A2). simpl.
      repeat split; apply Rmax_lub; assumption.
    + intros v Hv. apply Hl. right. exact Hv.
Qed.

(** The half-extent found for [A] is at most the one found for any [B]
    that has all the rows of [A]. *)
Lemma extent_monotone (A B : list Vec3) (mA mB : Vec3) :
  numpy.amax (numpy.absolute A) = Ok mA ->
  numpy.amax (numpy.absolute B) = Ok mB ->
  (forall p, In p A -> In p B) ->
  0 <= vector.length (elems3 mA) <= vector.length (elems3 mB).
Proof.
  intros HA HB Hsub. split.
  { unfold vector.length. apply sqrt_pos. }
  assert (Hrow : forall v, In v (numpy.absolute A) ->
            v0 v <= v0 mB /\ v1 v <= v1 mB /\ v2 v <= v2 mB).
  { intros v Hv. apply (amax_ge_row _ mB v HB).
    unfold numpy.absolute in *. apply in_map_iff in Hv.
    destruct Hv as (p & <- & Hp). apply in_map_iff. eauto. }
  destruct A as [|q qs]; [discriminate|]. simpl in HA. injection HA as HA.
  assert (Hle : v0 mA <= v0 mB /\ v1 mA <= v1 mB /\ v2 mA <= v2 mB).
  { rewrite <- HA. apply foldl_maximum_le.
    - apply Hrow. left. reflexivity.
    - intros v Hv. apply Hrow. right. exact Hv. }
  assert (Hpos : 0 <= v0 mA /\ 0 <= v1 mA /\ 0 <= v2 mA).
  { rewrite <- HA.
    destruct (foldl_maximum_ge_acc (numpy.absolute qs)
                (mkVec3 (Rabs (v0 q)) (Rabs (v1 q)) (Rabs (v2 q))))
      as (G0 & G1 & G2). simpl in *.
    pose proof (Rabs_pos (v0 q)). pose proof (Rabs_pos (v1 q)).
    pose proof (Rabs_pos (v2 q)). lra. }
  rewrite !length_vec3_unfold. apply sqrt_le_1_alt. nra.
Qed.

(** The half-extent is at least the length of every point. *)
Lemma extent_ge_point_length (points : list Vec3) (m p : Vec3) :
  numpy.amax (numpy.absolute points) = Ok m -> In p points ->
  vector.length (elems3 p) <= vector.length (elems3 m).
Proof.
  intros Hm Hin.
  assert (Hp : numpy.amax (numpy.absolute [p]) = Ok
                 (mkVec3 (Rabs (v0 p)) (Rabs (v1 p)) (Rabs (v2 p))))
    by reflexivity.
  assert (Hsub : forall x, In x [p] -> In x points).
  { intros x [<-|[]]. exact Hin. }
  destruct (extent_monotone [p] points _ m Hp Hm Hsub) as [_ Hle].
  rewrite length_vec3_unfold in *. simpl in Hle.
  replace (v0 p * v0 p + v1 p * v1 p + v2 p * v2 p)
    with (Rabs (v0 p) * Rabs (v0 p) + Rabs (v1 p) * Rabs (v1 p)
          + Rabs (v2 p) * Rabs (v2 p)); [exact Hle|].
  rewrite <- !Rabs_mult. rewrite !Rabs_right by nra. reflexivity.
Qed.

(** X23: the box that [create_from_points] writes contains every input
    point however it is rotated about the origin: any vector with the
    length of an input point lies between the minimum and the maximum
    corner on every axis. *)
Theorem create_from_points_contains_rotations (points : list Vec3)
    (out : option loc) (h h' : store) (r : pyret) :
  valid_out out h ->
  create_from_points u points out h = Ok (r, h') ->
  exists box,
    h' !! written out h = Some box
    /\ forall p p', In p points ->
         vector.length (elems3 p') = vector.length (elems3 p) ->
         v0 (minimum box) <= v0 p' <= v0 (maximum box)
         /\ v1 (minimum box) <= v1 p' <= v1 (maximum box)
         /\ v2 (minimum box) <= v2 p' <= v2 (maximum box).
Proof.
  intros Hv Hc. destruct points as [|q qs].
  - rewrite create_from_points_empty in Hc. discriminate.
  - rewrite create_from_points_eval in Hc. injection Hc as _ <-.
    eexists. split; [apply written_lookup, Hv|].
    intros p p' Hin Hlen.
    unfold minimum, maximum, cube; cbn [row0 row1 v0 v1 v2].
    set (m := foldl numpy.maximum _ (numpy.absolute qs)).
    assert (Hext : vector.length (elems3 p) <= vector.length (elems3 m)).
    { apply (extent_ge_point_length (q :: qs)); [reflexivity|exact Hin]. }
    destruct (abs_coordinate_le_length p') as (A0 & A1 & A2).
    rewrite Hlen in A0, A1, A2.
    pose proof (Rle_abs (v0 p')). pose proof (Rle_abs (- v0 p')).
    pose proof (Rle_abs (v1 p')). pose proof (Rle_abs (- v1 p')).
    pose proof (Rle_abs (v2 p')). pose proof (Rle_abs (- v2 p')).
    rewrite Rabs_Ropp in *. lra.
Qed.


(** X25: [create_from_points] and [create_from_aabbs] complete exactly on
    a non-empty input and raise [ValueError] on an empty one;
    [create_from_bounds] raises [TypeError] on every input. *)
Theorem create_completes_iff (out : option loc) (h : store) :
  (forall points,
     ((exists res, create_from_points u points out h = Ok res)
      <-> points <> [])
     /\ (create_from_points u points out h = Raise ValueError
         <-> points = []))
  /\ (forall aabbs,
        ((exists res, create_from_aabbs u aabbs out h = Ok res)
         <-> aabbs <> [])
        /\ (create_from_aabbs u aabbs out h = Raise ValueError
            <-> aabbs = []))
  /\ (forall min max, create_from_bounds u min max out h = Raise TypeError).
Proof.
  assert (P : forall points,
            ((exists res, create_from_points u points out h = Ok res)
             <-> points <> [])
            /\ (create_from_points u points out h = Raise ValueError
                <-> points = [])).
  { intros [|p ps].
    - rewrite create_from_points_empty.
      split; split; try congruence; try tauto. intros [? ?]; discriminate.
    - rewrite create_from_points_eval.
      split; split; try discriminate; eauto. }
  assert (E : forall aabbs, reshape_rows aabbs = [] <-> aabbs = []).
  { intros [|b bs]; simpl; split; congruence. }
  split; [exact P|]. split.
  - intros aabbs. unfold create_from_aabbs.
    destruct (P (reshape_rows aabbs)) as [P1 P2].
    rewrite E in P1, P2. split; assumption.
  - intros mn mx. apply create_from_bounds_raises.
Qed.

(** X26: building an AAMBB from one AAMBB gives a bigger one: from the
    cube of half-extent [r >= 0], [create_from_aabbs] writes the cube of
    half-extent [sqrt 3 * r]. *)
Theorem create_from_aabbs_grows (r : R) (out : option loc) (h : store) :
  0 <= r ->
  create_from_aabbs u [cube r] out h
  = Ok (PyNone, <[written out h := cube (sqrt 3 * r)]>
                  (match out with Some _ => h | None => h ++ [u] end)).
Proof.
  intros Hr. unfold create_from_aabbs; simpl. rewrite create_from_points_eval.
  simpl. do 4 f_equal.
  unfold vector.length, vector.squared_length; simpl.
  rewrite Rabs_Ropp, (Rabs_right r) by lra. rewrite Rmax_left by lra.
  replace (r * r + (r * r + (r * r + 0))) with (3 * (r * r)) by ring.
  rewrite sqrt_mult_alt by lra. rewrite sqrt_square by lra. reflexivity.
Qed.

(** X27: more points never give a smaller box: when every point of a
    non-empty [points] is among [points'], both calls complete and the
    half-extent written for [points] is at most the one for [points']. *)
Theorem create_from_points_monotone (points points' : list Vec3)
    (out : option loc) (h : store) :
  points <> [] ->
  (forall p, In p points -> In p points') ->
  exists r r',
    create_from_points u points out h
    = Ok (PyNone, <[written out h := cube r]>
                    (match out with Some _ => h | None => h ++ [u] end))
    /\ create_from_points u points' out h
       = Ok (PyNone, <[written out h := cube r']>
                       (match out with Some _ => h | None => h ++ [u] end))
    /\ 0 <= r <= r'.
Proof.
  intros Hne Hsub. destruct points as [|p ps]; [congruence|].
  destruct points' as [|p' ps'].
  { exfalso. apply (Hsub p). left. reflexivity. }
  rewrite !create_from_points_eval. eexists _, _.
  split; [reflexivity|]. split; [reflexivity|].
  apply (extent_monotone (p :: ps) (p' :: ps'));
    [reflexivity|reflexivity|exact Hsub].
Qed.

(** X28: the result depends only on which points are given, not on their
    order or on repetitions: two lists with the same elements give the
    same outcome. *)
Theorem create_from_points_same_points (points points' : list Vec3)
    (out : option loc) (h : store) :
  (forall p, In p points <-> In p points') ->
  create_from_points u points out h = create_from_points u points' out h.
Proof.
  intros Hsame. destruct points as [|p ps], points' as [|p' ps'].
  - reflexivity.
  - exfalso. apply (Hsame p'). left. reflexivity.
  - exfalso. apply (Hsame p). left. reflexivity.
  - rewrite !create_from_points_eval. do 4 f_equal.
    apply Rle_antisym.
    + apply (extent_monotone (p :: ps) (p' :: ps'));
        [reflexivity|reflexivity|].
      intros q. apply Hsame.
    + apply (extent_monotone (p' :: ps') (p :: ps));
        [reflexivity|reflexivity|].
      intros q. apply Hsame.
Qed.

End aambb_construction.

Lemma one_array_valid : aambb.valid_out (Some 0%nat) [aambb.cube 0].
Proof. simpl. lia. Qed.

(** Two points written into the only array of the store. *)
Lemma create_from_points_contains_rotations_witness :
  aambb.valid_out (Some 0%nat) [aambb.cube 0]
  /\ exists h',
       aambb.create_from_points (aambb.cube 0)
         [mkVec3 1 (-2) 2; mkVec3 0 0 (-3)] (Some 0%nat) [aambb.cube 0]
       = Ok (aambb.PyNone, h')
       /\ exists box,
            h' !! 0%nat = Some box
            /\ forall p p',
                 In p [mkVec3 1 (-2) 2; mkVec3 0 0 (-3)] ->
                 vector.length (elems3 p') = vector.length (elems3 p) ->
                 v0 (aambb.minimum box) <= v0 p' <= v0 (aambb.maximum box)
                 /\ v1 (aambb.minimum box) <= v1 p' <= v1 (aambb.maximum box)
                 /\ v2 (aambb.minimum box) <= v2 p' <= v2 (aambb.maximum box).
Proof.
  split; [exact one_array_valid|].
  eexists. split; [apply create_from_points_eval|].
  exact (create_from_points_contains_rotations (aambb.cube 0)
           [mkVec3 1 (-2) 2; mkVec3 0 0 (-3)] (Some 0%nat) [aambb.cube 0]
           _ aambb.PyNone one_array_valid
           (create_from_points_eval _ _ _ _ _)).
Defined.


(** The unit cube grows to half-extent [sqrt 3]. *)
Lemma create_from_aabbs_grows_witness :
  0 <= 1
  /\ aambb.create_from_aabbs (aambb.cube 0) [aambb.cube 1] None []
     = Ok (aambb.PyNone, <[0%nat := aambb.cube (sqrt 3 * 1)]> [aambb.cube 0]).
Proof.
  split; [lra|].
  apply (create_from_aabbs_grows (aambb.cube 0) 1 None []). lra.
Defined.

Lemma subset_of_two :
  forall p, In p [mkVec3 1 0 0] -> In p [mkVec3 1 0 0; mkVec3 0 2 0].
Proof. intros p [<-|[]]. left. reflexivity. Qed.

Lemma create_from_points_monotone_witness :
  [mkVec3 1 0 0] <> []
  /\ exists r r',
       aambb.create_from_points (aambb.cube 0) [mkVec3 1 0 0] None []
       = Ok (aambb.PyNone, <[0%nat := aambb.cube r]> [aambb.cube 0])
       /\ aambb.create_from_points (aambb.cube 0)
            [mkVec3 1 0 0; mkVec3 0 2 0] None []
          = Ok (aambb.PyNone, <[0%nat := aambb.cube r']> [aambb.cube 0])
       /\ 0 <= r <= r'.
Proof.
  assert (Hne : [mkVec3 1 0 0] <> []) by discriminate.
  split; [exact Hne|].
  exact (create_from_points_monotone (aambb.cube 0) [mkVec3 1 0 0]
           [mkVec3 1 0 0; mkVec3 0 2 0] None [] Hne subset_of_two).
Defined.

Lemma same_elements :
  forall p,
    In p [mkVec3 1 0 0; mkVec3 0 2 0]
    <-> In p [mkVec3 0 2 0; mkVec3 1 0 0; mkVec3 1 0 0].
Proof. intros p. simpl. tauto. Qed.

Lemma create_from_points_same_points_witness :
  aambb.create_from_points (aambb.cube 0)
    [mkVec3 1 0 0; mkVec3 0 2 0] None []
  = aambb.create_from_points (aambb.cube 0)
      [mkVec3 0 2 0; mkVec3 1 0 0; mkVec3 1 0 0] None [].
Proof.
  exact (create_from_points_same_points (aambb.cube 0) _ _ None []
           same_elements).
Defined.

(** ** Rays *)
Section rays.

(** A non-zero 3-array, normalised, has length 1 and points the same way. *)
Lemma normalised_row (d : Vec3) :
  d <> mkVec3 0 0 0 ->
  vector.length (elems3 (row_of_list (vector.normalise (elems3 d)))) = 1
  /\ vscale (row_of_list (vector.normalise (elems3 d)))
       (vector.length (elems3 d)) = d.
Proof.
  intros Hd.
  assert (HL : 0 < vector.length (elems3 d)).
  { apply vec3_length_pos. destruct d as [a b c]; simpl.
    intros [= -> -> ->]. apply Hd. reflexivity. }
  assert (HLL : vector.length (elems3 d) * vector.length (elems3 d)
                = v0 d * v0 d + v1 d * v1 d + v2 d * v2 d).
  { rewrite length_vec3_unfold. apply sqrt_sqrt. nra. }
  unfold vector.normalise, row_of_list; simpl.
  set (L := vector.length (elems3 d)) in *. split.
  - rewrite length_vec3_unfold; simpl.
    replace (v0 d / L * (v0 d / L) + v1 d / L * (v1 d / L)
             + v2 d / L * (v2 d / L))
      with ((v0 d * v0 d + v1 d * v1 d + v2 d * v2 d) / (L * L))
      by (field; lra).
    rewrite <- HLL. unfold Rdiv. rewrite Rinv_r by nra. apply sqrt_1.
  - unfold vscale; simpl. destruct d as [a b c]; simpl. f_equal; field; lra.
Qed.

(** X29: [create_ray] keeps the start as the origin and, for a non-zero
    direction, stores a direction of length 1 that points the same way
    (scaled by the original length it is the original direction). *)
Theorem create_ray_unit_direction (start direction : Vec3) :
  direction <> mkVec3 0 0 0 ->
  ray.origin (ray.create_ray start direction) = start
  /\ vector.length (elems3 (ray.direction (ray.create_ray start direction)))
     = 1
  /\ vscale (ray.direction (ray.create_ray start direction))
       (vector.length (elems3 direction)) = direction.
Proof.
  intros Hd. split; [reflexivity|]. apply (normalised_row direction Hd).
Qed.

(** X30: the ray made from a line with two different ends starts at the
    first end, has a direction of length 1, and reaches the second end at
    the parameter equal to the distance between the ends. *)
Theorem create_from_line_through_end (line : ray.Line) :
  ray.line0 line <> ray.line1 line ->
  ray.origin (ray.create_from_line line) = ray.line0 line
  /\ vector.length (elems3 (ray.direction (ray.create_from_line line))) = 1
  /\ vadd (ray.origin (ray.create_from_line line))
       (vscale (ray.direction (ray.create_from_line line))
          (vector.length
             (elems3 (vsub (ray.line1 line) (ray.line0 line)))))
     = ray.line1 line.
Proof.
  intros Hne. split; [reflexivity|].
  assert (Hd : vsub (ray.line1 line) (ray.line0 line) <> mkVec3 0 0 0).
  { intros H. apply Hne. destruct line as [[a0 a1 a2] [b0 b1 b2]]; simpl in *.
    unfold vsub in H; simpl in H. injection H as H0 H1 H2. f_equal; lra. }
  destruct (normalised_row _ Hd) as [Hu Hs].
  split; [exact Hu|].
  unfold ray.create_from_line, ray.origin, ray.direction; simpl. rewrite Hs.
  destruct line as [[a0 a1 a2] [b0 b1 b2]]; unfold vadd, vsub; simpl.
  f_equal; ring.
Qed.

End rays.

Lemma direction_0_3_4_non_zero : mkVec3 0 3 4 <> mkVec3 0 0 0.
Proof. intros H. injection H as H _. lra. Qed.

Lemma create_ray_unit_direction_witness :
  mkVec3 0 3 4 <> mkVec3 0 0 0
  /\ ray.origin (ray.create_ray (mkVec3 1 1 1) (mkVec3 0 3 4)) = mkVec3 1 1 1
  /\ vector.length
       (elems3 (ray.direction (ray.create_ray (mkVec3 1 1 1) (mkVec3 0 3 4))))
     = 1
  /\ vscale (ray.direction (ray.create_ray (mkVec3 1 1 1) (mkVec3 0 3 4)))
       (vector.length (elems3 (mkVec3 0 3 4))) = mkVec3 0 3 4.
Proof.
  split; [exact direction_0_3_4_non_zero|].
  exact (create_ray_unit_direction (mkVec3 1 1 1) (mkVec3 0 3 4)
           direction_0_3_4_non_zero).
Defined.

Lemma line_ends_differ :
  ray.line0 (ray.mkLine (mkVec3 1 1 1) (mkVec3 1 4 5))
  <> ray.line1 (ray.mkLine (mkVec3 1 1 1) (mkVec3 1 4 5)).
Proof. simpl. intros H. injection H as H _. lra. Qed.

Lemma create_from_line_through_end_witness :
  ray.origin (ray.create_from_line (ray.mkLine (mkVec3 1 1 1) (mkVec3 1 4 5)))
    = mkVec3 1 1 1
  /\ vector.length
       (elems3 (ray.direction
                  (ray.create_from_line
                     (ray.mkLine (mkVec3 1 1 1) (mkVec3 1 4 5))))) = 1
  /\ vadd (ray.origin
             (ray.create_from_line (ray.mkLine (mkVec3 1 1 1) (mkVec3 1 4 5))))
       (vscale
          (ray.direction
             (ray.create_from_line (ray.mkLine (mkVec3 1 1 1) (mkVec3 1 4 5))))
          (vector.length
             (elems3 (vsub (mkVec3 1 4 5) (mkVec3 1 1 1)))))
     = mkVec3 1 4 5.
Proof.
  exact (create_from_line_through_end
           (ray.mkLine (mkVec3 1 1 1) (mkVec3 1 4 5)) line_ends_differ).
Defined.
